(** * Conversation and response lifecycle of the chat page

    Shallow embedding of the [Home] component's [sendMessage] handler as it
    appears in the two revisions of the page:

    - [src/chat-ui/src/app/page.js]  (the reply is stored as it arrives);
    - [src/unnamed/part_000]         (the reply is first run through
      [JSON.parse] and rendered as an analysis card or as a paragraph).

    JavaScript strings are sequences of UTF-16 code units, values are the
    values [JSON.parse] can build plus [undefined], React state is a record
    that the handler transforms, and the one suspension point of the handler
    (the awaited [fetch] / [response.json()]) splits it into a synchronous
    prefix and a continuation that receives the outcome of the exchange.

    The development stops at the state: what React later makes of a turn's
    [content] when it renders the bubble is not described. *)

From Stdlib Require Import List NArith ZArith Bool Lia Ascii String.
Import ListNotations.

(** [length] is the length of a list throughout. *)
Abbreviation length := List.length (only parsing).

(* ================================================================== *)
(** ** JavaScript strings and values *)
(* ================================================================== *)

(** A string is the list of its UTF-16 code units. *)
Definition jsstring := list N.

(** An ASCII literal of the source, as code units. *)
Definition str (s : string) : jsstring :=
  List.map N_of_ascii (list_ascii_of_string s).

Definition chr_is (a : ascii) (c : N) : bool := N.eqb c (N_of_ascii a).

(** The code unit of the double quote. *)
Definition dquote : N := 34%N.

(** An ASCII literal in which an apostrophe stands for a double quote: the
    way the JSON texts of the examples are written down. *)
Definition json_text (s : string) : jsstring :=
  List.map (fun a => if Ascii.eqb a "'" then dquote else N_of_ascii a)
           (list_ascii_of_string s).

Fixpoint jsstring_eqb (a b : jsstring) : bool :=
  match a, b with
  | [], [] => true
  | x :: a', y :: b' => N.eqb x y && jsstring_eqb a' b'
  | _, _ => false
  end.

(** A JSON number is kept as the exact decimal its literal denotes,
    [(-1)^negative * digits * 10^exponent].  [JSON.parse] rounds it to a
    binary64; the only place where the code depends on that rounding is the
    truthiness test of [||], which [number_is_zero] decides exactly. *)
Record number : Type := Dec {
  negative : bool;
  digits   : N;
  exponent : Z
}.

(** The literal rounds to [+0] or [-0]: it is zero, or it lies at or below
    half of the least subnormal, [2^-1075] (a tie rounds to even, that is to
    zero). *)
Definition number_is_zero (n : number) : bool :=
  N.eqb (digits n) 0
  || (Z.ltb (exponent n) 0
      && Z.leb (Z.of_N (digits n) * 2 ^ 1075) (10 ^ (- exponent n)))%Z.

(** The values the handler manipulates.  [JSON.parse] never builds
    [VUndefined]; it arises from reading a property that is not there.  An
    object is the list of its own properties in creation order, without
    duplicate keys (see [define_property]). *)
#[warnings="-register-all"]
Inductive value : Type :=
  | VUndefined
  | VNull
  | VBool (b : bool)
  | VNumber (n : number)
  | VString (s : jsstring)
  | VArray (elements : list value)
  | VObject (properties : list (jsstring * value)).

(** [CreateDataProperty]: a key that is already there keeps its place and
    takes the new value (the last duplicate of a JSON text wins). *)
Fixpoint define_property (k : jsstring) (v : value)
    (o : list (jsstring * value)) : list (jsstring * value) :=
  match o with
  | [] => [(k, v)]
  | (k', v') :: o' =>
      if jsstring_eqb k k' then (k, v) :: o'
      else (k', v') :: define_property k v o'
  end.

Fixpoint own_property (o : list (jsstring * value)) (k : jsstring) : value :=
  match o with
  | [] => VUndefined
  | (k', v) :: o' => if jsstring_eqb k k' then v else own_property o' k
  end.

(** [v[k]] for a [v] that is neither [null] nor [undefined], for the keys the
    source reads ([response], [assistants], [analysis], [final_answer],
    [risk_assessment], [documentation_and_approvals],
    [procurement_strategy]).  None of them is an index, [length], or a name
    inherited from a built-in prototype, so the read finds an own property of
    an object and nothing on a primitive or an array. *)
Definition get_property (v : value) (k : jsstring) : value :=
  match v with
  | VObject o => own_property o k
  | _ => VUndefined
  end.

Definition nullish (v : value) : bool :=
  match v with
  | VUndefined | VNull => true
  | _ => false
  end.

(** [v.k]: a [TypeError] ([None]) on [null] and [undefined]. *)
Definition member (v : value) (k : jsstring) : option value :=
  if nullish v then None else Some (get_property v k).

(** [v?.k]. *)
Definition optional_member (v : value) (k : jsstring) : value :=
  if nullish v then VUndefined else get_property v k.

(** [ToBoolean]. *)
Definition truthy (v : value) : bool :=
  match v with
  | VUndefined | VNull => false
  | VBool b => b
  | VNumber n => negb (number_is_zero n)
  | VString s => match s with [] => false | _ => true end
  | VArray _ | VObject _ => true
  end.

(** [a || b]. *)
Definition or_else (a b : value) : value := if truthy a then a else b.

(* ================================================================== *)
(** ** [JSON.parse] *)
(* ================================================================== *)

Module JSON.

Local Open Scope N_scope.

(** Outcome of a parsing function: the parsed item and the unread input, a
    [SyntaxError], or exhaustion of the recursion budget. *)
Inductive result (A : Type) : Type :=
  | Ok (a : A) (rest : jsstring)
  | SyntaxError
  | OutOfFuel.
Arguments Ok {A} a rest.
Arguments SyntaxError {A}.
Arguments OutOfFuel {A}.

(** JSON white space: tab, line feed, carriage return, space. *)
Definition is_ws (c : N) : bool :=
  N.eqb c 9 || N.eqb c 10 || N.eqb c 13 || N.eqb c 32.

Fixpoint skip_ws (s : jsstring) : jsstring :=
  match s with
  | c :: r => if is_ws c then skip_ws r else s
  | [] => []
  end.

Definition is_digit (c : N) : bool := N.leb 48 c && N.leb c 57.

(** Value of a hexadecimal digit. *)
Definition hex (c : N) : option N :=
  if N.leb 48 c && N.leb c 57 then Some (c - 48)
  else if N.leb 65 c && N.leb c 70 then Some (c - 55)
  else if N.leb 97 c && N.leb c 102 then Some (c - 87)
  else None.

Definition hex4 (a b c d : N) : option N :=
  match hex a, hex b, hex c, hex d with
  | Some x, Some y, Some z, Some w => Some (((x * 16 + y) * 16 + z) * 16 + w)
  | _, _, _, _ => None
  end.

(** The character an escape letter stands for. *)
Definition escape (c : N) : option N :=
  if N.eqb c dquote then Some 34
  else if chr_is "\" c then Some 92
  else if chr_is "/" c then Some 47
  else if chr_is "b" c then Some 8
  else if chr_is "f" c then Some 12
  else if chr_is "n" c then Some 10
  else if chr_is "r" c then Some 13
  else if chr_is "t" c then Some 9
  else None.

(** The characters of a string after its opening quote, up to and including
    the closing quote.  [acc] holds the code units read so far, last first. *)
Fixpoint parse_chars (acc : jsstring) (s : jsstring) : result jsstring :=
  match s with
  | [] => SyntaxError
  | c :: r =>
      if N.eqb c dquote then Ok (rev acc) r
      else if chr_is "\" c then
        match r with
        | [] => SyntaxError
        | e :: r1 =>
            if chr_is "u" e then
              match r1 with
              | h1 :: h2 :: h3 :: h4 :: r2 =>
                  match hex4 h1 h2 h3 h4 with
                  | Some u => parse_chars (u :: acc) r2
                  | None => SyntaxError
                  end
              | _ => SyntaxError
              end
            else
              match escape e with
              | Some u => parse_chars (u :: acc) r1
              | None => SyntaxError
              end
        end
      else if N.ltb c 32 then SyntaxError
      else parse_chars (c :: acc) r
  end.

(** A maximal run of decimal digits appended to [acc]; returns the value,
    the number of digits read and the unread input. *)
Fixpoint parse_digits (acc : N) (count : nat) (s : jsstring)
    : N * nat * jsstring :=
  match s with
  | c :: r =>
      if is_digit c then parse_digits (acc * 10 + (c - 48)) (S count) r
      else (acc, count, s)
  | [] => (acc, count, [])
  end.

(** The integer part: a single [0], or a non-zero digit and more digits. *)
Definition parse_int (s : jsstring) : option (N * jsstring) :=
  match s with
  | c :: r =>
      if chr_is "0" c then Some (0, r)
      else if is_digit c then
        let '(m, _, r') := parse_digits (c - 48) 1%nat r in Some (m, r')
      else None
  | [] => None
  end.

(** The optional fraction: a point and at least one digit. *)
Definition parse_frac (m : N) (s : jsstring) : option (N * nat * jsstring) :=
  match s with
  | c :: r =>
      if chr_is "." c then
        match parse_digits m 0%nat r with
        | (_, O, _) => None
        | (m', k, r') => Some (m', k, r')
        end
      else Some (m, O, s)
  | [] => Some (m, O, [])
  end.

(** The optional exponent: [e] or [E], an optional sign, at least one
    digit. *)
Definition parse_exp (s : jsstring) : option (Z * jsstring) :=
  match s with
  | c :: r =>
      if chr_is "e" c || chr_is "E" c then
        let '(minus, r1) :=
          match r with
          | sg :: r0 =>
              if chr_is "-" sg then (true, r0)
              else if chr_is "+" sg then (false, r0)
              else (false, r)
          | [] => (false, r)
          end in
        match parse_digits 0 0%nat r1 with
        | (_, O, _) => None
        | (e, _, r2) =>
            Some (if minus then (- Z.of_N e)%Z else Z.of_N e, r2)
        end
      else Some (0%Z, s)
  | [] => Some (0%Z, [])
  end.

Definition parse_number (s : jsstring) : result number :=
  let '(neg, s1) :=
    match s with
    | c :: r => if chr_is "-" c then (true, r) else (false, s)
    | [] => (false, s)
    end in
  match parse_int s1 with
  | None => SyntaxError
  | Some (m, s2) =>
      match parse_frac m s2 with
      | None => SyntaxError
      | Some (m', k, s3) =>
          match parse_exp s3 with
          | None => SyntaxError
          | Some (e, s4) => Ok (Dec neg m' (e - Z.of_nat k)) s4
          end
      end
  end.

(** [s] starts with the word [w]; returns what follows it. *)
Fixpoint strip_prefix (w s : jsstring) : option jsstring :=
  match w, s with
  | [], _ => Some s
  | a :: w', c :: s' => if N.eqb a c then strip_prefix w' s' else None
  | _ :: _, [] => None
  end.

(** Recursive descent over the JSON grammar.  [parse_value] reads one value
    after optional white space; [parse_elements] reads the elements of an
    array after its first element has been found to be there, up to the
    closing bracket; [parse_members] does the same for an object. *)
Fixpoint parse_value (fuel : nat) (s : jsstring) : result value :=
  match fuel with
  | O => OutOfFuel
  | S fuel' =>
      match skip_ws s with
      | [] => SyntaxError
      | c :: r =>
          if chr_is "{" c then
            match skip_ws r with
            | c' :: r' =>
                if chr_is "}" c' then Ok (VObject []) r'
                else parse_members fuel' [] r
            | [] => SyntaxError
            end
          else if chr_is "[" c then
            match skip_ws r with
            | c' :: r' =>
                if chr_is "]" c' then Ok (VArray []) r'
                else parse_elements fuel' [] r
            | [] => SyntaxError
            end
          else if N.eqb c dquote then
            match parse_chars [] r with
            | Ok x r' => Ok (VString x) r'
            | SyntaxError => SyntaxError
            | OutOfFuel => OutOfFuel
            end
          else if chr_is "t" c then
            match strip_prefix (str "rue") r with
            | Some r' => Ok (VBool true) r'
            | None => SyntaxError
            end
          else if chr_is "f" c then
            match strip_prefix (str "alse") r with
            | Some r' => Ok (VBool false) r'
            | None => SyntaxError
            end
          else if chr_is "n" c then
            match strip_prefix (str "ull") r with
            | Some r' => Ok VNull r'
            | None => SyntaxError
            end
          else
            match parse_number (c :: r) with
            | Ok n r' => Ok (VNumber n) r'
            | SyntaxError => SyntaxError
            | OutOfFuel => OutOfFuel
            end
      end
  end

with parse_elements (fuel : nat) (acc : list value) (s : jsstring)
    : result value :=
  match fuel with
  | O => OutOfFuel
  | S fuel' =>
      match parse_value fuel' s with
      | Ok v r =>
          match skip_ws r with
          | c :: r' =>
              if chr_is "," c then parse_elements fuel' (v :: acc) r'
              else if chr_is "]" c then Ok (VArray (rev (v :: acc))) r'
              else SyntaxError
          | [] => SyntaxError
          end
      | SyntaxError => SyntaxError
      | OutOfFuel => OutOfFuel
      end
  end

with parse_members (fuel : nat) (acc : list (jsstring * value))
    (s : jsstring) : result value :=
  match fuel with
  | O => OutOfFuel
  | S fuel' =>
      match skip_ws s with
      | c :: r =>
          if N.eqb c dquote then
            match parse_chars [] r with
            | Ok k r1 =>
                match skip_ws r1 with
                | c1 :: r2 =>
                    if chr_is ":" c1 then
                      match parse_value fuel' r2 with
                      | Ok v r3 =>
                          match skip_ws r3 with
                          | c3 :: r4 =>
                              if chr_is "," c3 then
                                parse_members fuel' (define_property k v acc) r4
                              else if chr_is "}" c3 then
                                Ok (VObject (define_property k v acc)) r4
                              else SyntaxError
                          | [] => SyntaxError
                          end
                      | SyntaxError => SyntaxError
                      | OutOfFuel => OutOfFuel
                      end
                    else SyntaxError
                | [] => SyntaxError
                end
            | SyntaxError => SyntaxError
            | OutOfFuel => OutOfFuel
            end
          else SyntaxError
      | [] => SyntaxError
      end
  end.

(** Recursion budget that [parse_value] never exhausts on [s]
    (see [parse_fuel_enough]). *)
Definition fuel_for (s : jsstring) : nat := S (2 * List.length s).

(** [JSON.parse(text)] for a string [text]: one value, white space around
    it, nothing else.  [None] is the [SyntaxError] it throws. *)
Definition parse (text : jsstring) : option value :=
  match parse_value (fuel_for text) text with
  | Ok v r => match skip_ws r with [] => Some v | _ :: _ => None end
  | _ => None
  end.

(** With more than twice the length of the input as budget, [parse_value]
    does not run out, and a value it reads takes at least one code unit;
    the same for the two loops, which need one unit of budget more. *)
Definition enough_for_value (fuel : nat) : Prop :=
  forall s : jsstring, (2 * length s < fuel)%nat ->
    parse_value fuel s <> OutOfFuel /\
    forall v r, parse_value fuel s = Ok v r -> (length r < length s)%nat.

Definition enough_for_elements (fuel : nat) : Prop :=
  forall acc (s : jsstring), (2 * length s + 1 < fuel)%nat ->
    parse_elements fuel acc s <> OutOfFuel /\
    forall v r, parse_elements fuel acc s = Ok v r -> (length r < length s)%nat.

Definition enough_for_members (fuel : nat) : Prop :=
  forall acc (s : jsstring), (2 * length s + 1 < fuel)%nat ->
    parse_members fuel acc s <> OutOfFuel /\
    forall v r, parse_members fuel acc s = Ok v r -> (length r < length s)%nat.

End JSON.

(* ================================================================== *)
(** ** [ToString] and [String.prototype.trim] *)
(* ================================================================== *)

Section ToString.

(** [Number::toString], the shortest decimal that reads back as the same
    binary64, is a built-in that the page does not define; the development
    holds for any such function. *)
Variable Number_toString : number -> jsstring.

(** Insert [sep] between the items. *)
Fixpoint join (sep : jsstring) (items : list jsstring) : jsstring :=
  match items with
  | [] => []
  | [x] => x
  | x :: rest => x ++ sep ++ join sep rest
  end.

(** [ToString(v)], the conversion [JSON.parse] applies to its argument;
    [None] is the [TypeError] it throws.  An array is joined with commas,
    [null] and [undefined] elements giving the empty string.  An object
    without an own [toString] property is [[object Object]]; with one, which
    in a value built by [JSON.parse] is never a function, no conversion to a
    primitive is found and [ToString] throws. *)
Fixpoint ToString (v : value) : option jsstring :=
  match v with
  | VUndefined => Some (str "undefined")
  | VNull => Some (str "null")
  | VBool true => Some (str "true")
  | VBool false => Some (str "false")
  | VNumber n => Some (Number_toString n)
  | VString s => Some s
  | VArray l =>
      match
        (fix items (l : list value) : option (list jsstring) :=
           match l with
           | [] => Some []
           | x :: r =>
               match (if nullish x then Some [] else ToString x) with
               | None => None
               | Some a =>
                   match items r with
                   | None => None
                   | Some b => Some (a :: b)
                   end
               end
           end) l
      with
      | None => None
      | Some parts => Some (join (str ",") parts)
      end
  | VObject o =>
      if existsb (fun kv => jsstring_eqb (str "toString") (fst kv)) o
      then None
      else Some (str "[object Object]")
  end.

(** [JSON.parse(v)] for a value of any type: the conversion to a string,
    then the parse; [None] when either throws. *)
Definition JSON_parse (v : value) : option value :=
  match ToString v with
  | None => None
  | Some text => JSON.parse text
  end.

End ToString.

(** White space and line terminators, the code units [trim] strips. *)
Definition is_white_space (c : N) : bool :=
  (N.eqb c 9 || N.eqb c 10 || N.eqb c 11 || N.eqb c 12 || N.eqb c 13
   || N.eqb c 32 || N.eqb c 160 || N.eqb c 5760
   || (N.leb 8192 c && N.leb c 8202)
   || N.eqb c 8232 || N.eqb c 8233 || N.eqb c 8239 || N.eqb c 8287
   || N.eqb c 12288 || N.eqb c 65279)%N.

Fixpoint trim_start (s : jsstring) : jsstring :=
  match s with
  | c :: r => if is_white_space c then trim_start r else s
  | [] => []
  end.

(** [s.trim()]. *)
Definition trim (s : jsstring) : jsstring :=
  rev (trim_start (rev (trim_start s))).

(** [!s] for a string [s]. *)
Definition is_empty (s : jsstring) : bool :=
  match s with [] => true | _ :: _ => false end.

(* ================================================================== *)
(** ** Turns, session state and effects *)
(* ================================================================== *)

Inductive Role : Type := user | assistant.

(** What a turn holds as [content], later placed in the bubble as
    [{msg.content}]:
    - [Raw v]: a value as it is (the user's [message]; in [page.js] the
      reply [data.response]);
    - [PlainText v]: the element [<p>{v}</p>];
    - [StructuredAnalysis fa ra da ps]: the analysis card, whose four [<p>]
      slots hold the final answer, the risk assessment, the documentation
      and approvals, and the procurement strategy. *)
Inductive DisplayContent : Type :=
  | Raw (v : value)
  | PlainText (v : value)
  | StructuredAnalysis
      (final_answer risk_assessment documentation_and_approvals
       procurement_strategy : value).

Record Turn : Type := {
  role    : Role;
  content : DisplayContent
}.

(** The five [useState] cells of [Home]. *)
Record SessionState : Type := {
  message           : jsstring;
  conversations     : list Turn;
  assistants        : value;
  selectedAssistant : jsstring;
  loading           : bool
}.

(** State of the first render. *)
Definition initial : SessionState :=
  {| message := []; conversations := []; assistants := VArray [];
     selectedAssistant := []; loading := false |}.

Definition setMessage (m : jsstring) (st : SessionState) : SessionState :=
  {| message := m; conversations := conversations st;
     assistants := assistants st;
     selectedAssistant := selectedAssistant st; loading := loading st |}.

(** [setConversations(prev => f(prev))]. *)
Definition setConversations (f : list Turn -> list Turn) (st : SessionState)
    : SessionState :=
  {| message := message st; conversations := f (conversations st);
     assistants := assistants st;
     selectedAssistant := selectedAssistant st; loading := loading st |}.

Definition setAssistants (a : value) (st : SessionState) : SessionState :=
  {| message := message st; conversations := conversations st;
     assistants := a;
     selectedAssistant := selectedAssistant st; loading := loading st |}.

Definition setSelectedAssistant (a : jsstring) (st : SessionState)
    : SessionState :=
  {| message := message st; conversations := conversations st;
     assistants := assistants st;
     selectedAssistant := a; loading := loading st |}.

Definition setLoading (b : bool) (st : SessionState) : SessionState :=
  {| message := message st; conversations := conversations st;
     assistants := assistants st;
     selectedAssistant := selectedAssistant st; loading := b |}.

(** What can be thrown inside the handlers' [try] blocks. *)
Inductive exn : Type :=
  | FetchFailed       (* [fetch] rejected: no response was obtained *)
  | BodyNotJSON       (* [response.json()] rejected with a SyntaxError *)
  | NullRead.         (* TypeError: a property of [null] was read *)

Inductive effect : Type :=
  | console_log (v : value)
  | console_error (label : jsstring) (e : exn).

(** A call of [fetch(url, {method, headers, body})].  [body] is the object
    handed to [JSON.stringify]; its serialisation is not modelled. *)
Record request : Type := {
  url          : jsstring;
  method       : jsstring;
  content_type : jsstring;
  assistant_id : jsstring;
  body         : value
}.

(** How the exchange settles: [fetch] rejects (or the body cannot be read),
    or it resolves with a response of any status, whose body is read as
    text. *)
Inductive fetch_outcome : Type :=
  | Rejected
  | Responded (status : N) (text : jsstring).

Inductive completion (A : Type) : Type :=
  | Normal (a : A)
  | Throw (e : exn).
Arguments Normal {A} a.
Arguments Throw {A} e.

(** [const response = await fetch(...); const data = await response.json();]
    The status of the response is not looked at. *)
Definition await_data (o : fetch_outcome) : completion value :=
  match o with
  | Rejected => Throw FetchFailed
  | Responded _ text =>
      match JSON.parse text with
      | Some data => Normal data
      | None => Throw BodyNotJSON
      end
  end.

(** [disabled={loading || !selectedAssistant}], on the text area and on the
    submit button alike. *)
Definition disabled (st : SessionState) : bool :=
  loading st || is_empty (selectedAssistant st).

(** The guard of [sendMessage]: [!message.trim() || !selectedAssistant]. *)
Definition refused (st : SessionState) : bool :=
  is_empty (trim (message st)) || is_empty (selectedAssistant st).

(** The user's turn: [{ role: 'user', content: message }]. *)
Definition newMessage (st : SessionState) : Turn :=
  {| role := user; content := Raw (VString (message st)) |}.

(** The body of the chat request. *)
Definition chat_body (st : SessionState) : value :=
  VObject [(str "user_id", VString (str "default"));
           (str "message", VString (message st))].

(** The assistant's turn: [{ role: 'assistant', content: ... }]. *)
Definition reply (c : DisplayContent) : Turn :=
  {| role := assistant; content := c |}.

(** [prev => [...prev, t]]. *)
Definition append (t : Turn) (prev : list Turn) : list Turn := prev ++ [t].

(* ================================================================== *)
(** ** [src/unnamed/part_000] *)
(* ================================================================== *)

Module Part000.

Section Home.

(** [API_URL] is imported from [@/lib/utils], which is not part of the
    sources at hand. *)
Variable API_URL : jsstring.
Variable Number_toString : number -> jsstring.

(** [parsed?.analysis?.final_answer || "Not provided"]; never throws. *)
Definition final_answer_slot (parsed : value) : value :=
  or_else
    (optional_member (optional_member parsed (str "analysis"))
                     (str "final_answer"))
    (VString (str "Not provided")).

(** [parsed.analysis?.analysis?.<field> || "N/A"]; the first read is a plain
    member access and throws on [null]. *)
Definition detail_slot (parsed : value) (field : jsstring) : option value :=
  match member parsed (str "analysis") with
  | None => None
  | Some a =>
      Some (or_else
              (optional_member (optional_member a (str "analysis")) field)
              (VString (str "N/A")))
  end.

(** The inner [try] of [sendMessage] (lines 65-98): the new [content] and
    what is written to the console.  The element is built slot by slot, in
    source order; a throw anywhere leaves [content] as it was and the
    [catch] wraps it in a paragraph. *)
Definition interpret (content : value) : DisplayContent * list effect :=
  match JSON_parse Number_toString content with
  | None => (PlainText content, [])
  | Some parsed =>
      let fa := final_answer_slot parsed in
      match detail_slot parsed (str "risk_assessment") with
      | None => (PlainText content, [console_log parsed])
      | Some ra =>
          match detail_slot parsed (str "documentation_and_approvals") with
          | None => (PlainText content, [console_log parsed])
          | Some da =>
              match detail_slot parsed (str "procurement_strategy") with
              | None => (PlainText content, [console_log parsed])
              | Some ps =>
                  (StructuredAnalysis fa ra da ps, [console_log parsed])
              end
          end
      end
  end.

(** [fetchAssistants], from the point where the awaited calls settle. *)
Definition fetchAssistants_resume (o : fetch_outcome) (st : SessionState)
    : SessionState * list effect :=
  match await_data o with
  | Normal data =>
      match member data (str "assistants") with
      | Some a => (setAssistants a st, [])
      | None =>
          (st, [console_error (str "Error fetching assistants:") NullRead])
      end
  | Throw e => (st, [console_error (str "Error fetching assistants:") e])
  end.

(** [sendMessage] up to its first [await] (lines 38-60): the state it leaves
    and the request it has issued, if any. *)
Definition sendMessage (st : SessionState) : SessionState * option request :=
  if refused st then (st, None)
  else
    let st1 := setLoading true st in
    let st2 := setConversations (append (newMessage st)) st1 in
    (st2,
     Some {| url := API_URL ++ str "/chat/";
             method := str "POST";
             content_type := str "application/json";
             assistant_id := selectedAssistant st;
             body := chat_body st |}).

(** The rest of [sendMessage] (lines 62-109), run on the state of the
    moment the exchange settles. *)
Definition sendMessage_resume (o : fetch_outcome) (st : SessionState)
    : SessionState * list effect :=
  let '(st1, out) :=
    match await_data o with
    | Normal data =>
        match member data (str "response") with
        | Some content =>
            let '(content', out) := interpret content in
            (setConversations (append (reply content')) st, out)
        | None =>
            (st, [console_error (str "Error sending message:") NullRead])
        end
    | Throw e => (st, [console_error (str "Error sending message:") e])
    end in
  (setMessage [] (setLoading false st1), out).

(** A click on the submit button (lines 170-176): a disabled button submits
    nothing, an enabled one submits the form, which runs [sendMessage]. *)
Definition click_submit (st : SessionState) : SessionState * option request :=
  if disabled st then (st, None) else sendMessage st.

(** The page together with the number of chat exchanges that have been
    started and have not settled yet. *)
Record page : Type := {
  state     : SessionState;
  in_flight : nat
}.

(** What can happen to the page: the user types (the text area is enabled),
    picks an assistant, clicks an enabled submit button; the assistant list
    arrives; an outstanding chat exchange settles. *)
Inductive step : page -> page -> Prop :=
  | step_type (text : jsstring) (p : page) :
      disabled (state p) = false ->
      step p {| state := setMessage text (state p);
                in_flight := in_flight p |}
  | step_select (id : jsstring) (p : page) :
      step p {| state := setSelectedAssistant id (state p);
                in_flight := in_flight p |}
  | step_click (p : page) :
      disabled (state p) = false ->
      step p {| state := fst (sendMessage (state p));
                in_flight :=
                  match snd (sendMessage (state p)) with
                  | Some _ => S (in_flight p)
                  | None => in_flight p
                  end |}
  | step_assistants (o : fetch_outcome) (p : page) :
      step p {| state := fst (fetchAssistants_resume o (state p));
                in_flight := in_flight p |}
  | step_settle (o : fetch_outcome) (p : page) :
      0 < in_flight p ->
      step p {| state := fst (sendMessage_resume o (state p));
                in_flight := pred (in_flight p) |}.

Inductive reachable : page -> Prop :=
  | reachable_initial : reachable {| state := initial; in_flight := 0 |}
  | reachable_step (p q : page) : reachable p -> step p q -> reachable q.

End Home.

End Part000.

(* ================================================================== *)
(** ** [src/chat-ui/src/app/page.js] *)
(* ================================================================== *)

Module PageJs.

Definition fetchAssistants_resume (o : fetch_outcome) (st : SessionState)
    : SessionState * list effect :=
  match await_data o with
  | Normal data =>
      match member data (str "assistants") with
      | Some a => (setAssistants a st, [])
      | None =>
          (st, [console_error (str "Error fetching assistants:") NullRead])
      end
  | Throw e => (st, [console_error (str "Error fetching assistants:") e])
  end.

(** [sendMessage] up to its first [await] (lines 37-59). *)
Definition sendMessage (st : SessionState) : SessionState * option request :=
  if refused st then (st, None)
  else
    let st1 := setLoading true st in
    let st2 := setConversations (append (newMessage st)) st1 in
    (st2,
     Some {| url := str "http://localhost:8000/chat/";
             method := str "POST";
             content_type := str "application/json";
             assistant_id := selectedAssistant st;
             body := chat_body st |}).

(** The rest of [sendMessage] (lines 61-73).  Here [data.response] stands
    inside the updater [prev => [...prev, {..., content: data.response}]],
    so it is read when React runs the updater, outside the [try]: for
    [data = null] nothing is caught, the [finally] runs, and the render that
    applies the updater throws.  [None] is that outcome: the component is
    torn down and there is no state left to speak of. *)
Definition sendMessage_resume (o : fetch_outcome) (st : SessionState)
    : option SessionState * list effect :=
  match await_data o with
  | Normal data =>
      (match member data (str "response") with
       | Some response =>
           Some (setMessage []
                   (setLoading false
                      (setConversations (append (reply (Raw response))) st)))
       | None => None
       end,
       [console_log data])
  | Throw e =>
      (Some (setMessage [] (setLoading false st)),
       [console_error (str "Error sending message:") e])
  end.

Definition click_submit (st : SessionState) : SessionState * option request :=
  if disabled st then (st, None) else sendMessage st.

End PageJs.

(* ================================================================== *)
(** ** Vocabulary of the properties *)
(* ================================================================== *)

(** The placeholders of the analysis card. *)
Definition not_provided : value := VString (str "Not provided").
Definition n_a : value := VString (str "N/A").

(** The card with nothing but placeholders. *)
Definition placeholders : DisplayContent :=
  StructuredAnalysis not_provided n_a n_a n_a.

(** What [parsed.analysis?.analysis?.<field> || "N/A"] yields for a [parsed]
    that is not [null]. *)
Definition detail (parsed : value) (field : jsstring) : value :=
  or_else
    (optional_member
       (optional_member (get_property parsed (str "analysis"))
                        (str "analysis")) field)
    n_a.

Definition is_object (v : value) : bool :=
  match v with VObject _ => true | _ => false end.

(** [v] is an object with an own property [k]. *)
Definition has_key (v : value) (k : jsstring) : bool :=
  match v with
  | VObject o => existsb (fun kv => jsstring_eqb k (fst kv)) o
  | _ => false
  end.

(** The document carries the four fields of the analysis: [fa] at
    [analysis.final_answer], and [ra], [da], [ps] under
    [analysis.analysis]. *)
Definition has_fields (parsed fa ra da ps : value) : Prop :=
  exists a inner,
    get_property parsed (str "analysis") = VObject a /\
    own_property a (str "final_answer") = fa /\
    own_property a (str "analysis") = VObject inner /\
    own_property inner (str "risk_assessment") = ra /\
    own_property inner (str "documentation_and_approvals") = da /\
    own_property inner (str "procurement_strategy") = ps.

(** The slots of a card; nothing for the other contents. *)
Definition final_answer_of (c : DisplayContent) : option value :=
  match c with StructuredAnalysis fa _ _ _ => Some fa | _ => None end.
Definition risk_assessment_of (c : DisplayContent) : option value :=
  match c with StructuredAnalysis _ ra _ _ => Some ra | _ => None end.
Definition documentation_and_approvals_of (c : DisplayContent)
    : option value :=
  match c with StructuredAnalysis _ _ da _ => Some da | _ => None end.
Definition procurement_strategy_of (c : DisplayContent) : option value :=
  match c with StructuredAnalysis _ _ _ ps => Some ps | _ => None end.

(** The exchange ends in the [catch] of [sendMessage] in [part_000]: no
    response, a body that is not JSON, or the JSON body [null]. *)
Definition exchange_fails (o : fetch_outcome) : bool :=
  match o with
  | Rejected => true
  | Responded _ text =>
      match JSON.parse text with
      | None => true
      | Some data => nullish data
      end
  end.

(** [response.ok]: the status is in the range 200-299. *)
Definition status_ok (status : N) : bool :=
  (N.leb 200 status && N.leb status 299)%N.

(** A failure in the wider sense that also counts a response whose status
    is not a success. *)
Definition fails_or_bad_status (o : fetch_outcome) : bool :=
  exchange_fails o
  || match o with
     | Rejected => false
     | Responded status _ => negb (status_ok status)
     end.

(** The reply with an empty final answer and three filled details. *)
Definition empty_final_answer : jsstring :=
  json_text
    "{'analysis':{'final_answer':'','analysis':{'risk_assessment':'Low','documentation_and_approvals':'Signed','procurement_strategy':'Tender'}}}".

(** The reply with all four fields filled. *)
Definition full_analysis : jsstring :=
  json_text
    "{'analysis':{'final_answer':'Approve','analysis':{'risk_assessment':'Low','documentation_and_approvals':'Signed','procurement_strategy':'Tender'}}}".

(** A response with status 500 and the error document of the backend as
    its body. *)
Definition server_error : fetch_outcome :=
  Responded 500 (json_text "{'detail':'Internal Server Error'}").

(** A successful response carrying the plain reply [hi there]. *)
Definition hi_there : fetch_outcome :=
  Responded 200 (json_text "{'response':'hi there'}").

(** A session in which only blanks have been typed for assistant [a1]. *)
Definition blanks_ready : SessionState :=
  setMessage (str "   ") (setSelectedAssistant (str "a1") initial).

(** The body of the response is the JSON [null]. *)
Definition null_body (o : fetch_outcome) : bool :=
  match o with
  | Rejected => false
  | Responded _ text =>
      match JSON.parse text with
      | Some data => nullish data
      | None => false
      end
  end.

(** A successful response whose body is the JSON [null]. *)
Definition null_response : fetch_outcome := Responded 200 (str "null").

(** A stand-in for [Number::toString] in closed examples, none of which has
    a number to convert. *)
Definition no_number : number -> jsstring := fun _ => [].

(** The base URL used in closed examples. *)
Definition example_url : jsstring := str "http://localhost:8000".

(** A session in which [hello] has been typed for assistant [a1]. *)
Definition hello_ready : SessionState :=
  setMessage (str "hello") (setSelectedAssistant (str "a1") initial).

(** The same session with a first exchange under way. *)
Definition hello_sending : SessionState :=
  fst (Part000.sendMessage example_url hello_ready).

(* ================================================================== *)
(** ** More of the page: the request body, the select list, the dialogue *)
(* ================================================================== *)

(** A code unit is a 16-bit number. *)
Definition code_unit (c : N) : Prop := (c < 65536)%N.

(** The lower-case hexadecimal digit of a number below 16. *)
Definition hex_digit (d : N) : N := (if d <? 10 then 48 + d else 87 + d)%N.

(** [UnicodeEscape]: a backslash, [u], and four hexadecimal digits. *)
Definition unicode_escape (c : N) : jsstring :=
  [92; 117; hex_digit (c / 4096); hex_digit ((c / 256) mod 16);
   hex_digit ((c / 16) mod 16); hex_digit (c mod 16)]%N.

(** The letter of the two-character escape of a code unit, if it has one:
    backspace, tab, line feed, form feed, carriage return, double quote and
    backslash. *)
Definition short_escape (c : N) : option N :=
  (if c =? 8 then Some 98
   else if c =? 9 then Some 116
   else if c =? 10 then Some 110
   else if c =? 12 then Some 102
   else if c =? 13 then Some 114
   else if c =? 34 then Some 34
   else if c =? 92 then Some 92
   else None)%N.

Definition is_leading_surrogate (c : N) : bool :=
  (55296 <=? c)%N && (c <=? 56319)%N.

Definition is_trailing_surrogate (c : N) : bool :=
  (56320 <=? c)%N && (c <=? 57343)%N.

(** The inside of [QuoteJSONString]: the characters with a short escape
    take it; the other control characters and the surrogates that are not
    part of a pair are written as [UnicodeEscape]; everything else,
    surrogate pairs included, is copied. *)
Fixpoint quote_chars (s : jsstring) : jsstring :=
  match s with
  | [] => []
  | c :: r =>
      match short_escape c with
      | Some e => 92%N :: e :: quote_chars r
      | None =>
          if (c <? 32)%N then unicode_escape c ++ quote_chars r
          else if is_leading_surrogate c then
            match r with
            | d :: r' =>
                if is_trailing_surrogate d then c :: d :: quote_chars r'
                else unicode_escape c ++ quote_chars r
            | [] => unicode_escape c
            end
          else if is_trailing_surrogate c then
            unicode_escape c ++ quote_chars r
          else c :: quote_chars r
      end
  end.

Definition QuoteJSONString (s : jsstring) : jsstring :=
  dquote :: quote_chars s ++ [dquote].

(** [JSON.stringify({ user_id: 'default', message: message })], the body
    of the chat request as it goes over the wire (lines 56-59). *)
Definition chat_payload (message : jsstring) : jsstring :=
  str "{" ++ QuoteJSONString (str "user_id") ++ str ":"
  ++ QuoteJSONString (str "default") ++ str ","
  ++ QuoteJSONString (str "message") ++ str ":"
  ++ QuoteJSONString message ++ str "}".

(** One [<SelectItem key={assistant.id} value={assistant.id}>
    {assistant.name}</SelectItem>]. *)
Record SelectItem : Type := {
  item_key   : value;
  item_value : value;
  item_label : value
}.

(** The three reads of one item; each throws on [null]. *)
Definition select_item (assistant : value) : option SelectItem :=
  match member assistant (str "id") with
  | None => None
  | Some k =>
      match member assistant (str "id") with
      | None => None
      | Some v =>
          match member assistant (str "name") with
          | None => None
          | Some n =>
              Some {| item_key := k; item_value := v; item_label := n |}
          end
      end
  end.

Fixpoint select_item_list (l : list value) : option (list SelectItem) :=
  match l with
  | [] => Some []
  | a :: r =>
      match select_item a with
      | None => None
      | Some i =>
          match select_item_list r with
          | None => None
          | Some is' => Some (i :: is')
          end
      end
  end.

(** [assistants.map((assistant) => <SelectItem .../>)] (lines 126-130):
    the items of the select list, or [None] when the expression throws,
    which it does for everything that is not an array ([map] is not a
    function there) and for an array with a [null] in it. *)
Definition select_items (assistants : value) : option (list SelectItem) :=
  match assistants with
  | VArray l => select_item_list l
  | _ => None
  end.

Definition is_array (v : value) : bool :=
  match v with VArray _ => true | _ => false end.

(** The item of an assistant that is not [null]. *)
Definition item_of (assistant : value) : SelectItem :=
  {| item_key := get_property assistant (str "id");
     item_value := get_property assistant (str "id");
     item_label := get_property assistant (str "name") |}.

Definition is_user (t : Turn) : bool :=
  match role t with user => true | assistant => false end.

(** Reading the turns in order, every assistant turn comes right after a
    user turn; [asked] tells whether the turn before the list is one. *)
Fixpoint answers_follow (asked : bool) (l : list Turn) : bool :=
  match l with
  | [] => true
  | t :: r =>
      if is_user t then answers_follow true r
      else asked && answers_follow false r
  end.

(** The last turn is a user turn; [asked] stands for the turn before the
    list. *)
Fixpoint ends_asked (asked : bool) (l : list Turn) : bool :=
  match l with
  | [] => asked
  | t :: r => ends_asked (is_user t) r
  end.

(** A user turn holds the text as typed, which is not blank; an assistant
    turn of [part_000] holds a paragraph or a card. *)
Definition turn_fits (t : Turn) : bool :=
  match role t, content t with
  | user, Raw (VString m) => negb (is_empty (trim m))
  | assistant, PlainText _ => true
  | assistant, StructuredAnalysis _ _ _ _ => true
  | _, _ => false
  end.

(** What every page reached through the controls satisfies: answers follow
    questions, the turns hold what they should, and while an exchange is
    pending the last turn is the text still in the buffer. *)
Definition sound (p : Part000.page) : Prop :=
  let st := Part000.state p in
  answers_follow false (conversations st) = true /\
  forallb turn_fits (conversations st) = true /\
  (loading st = true ->
   exists before, conversations st = before ++ [newMessage st]).

(** The page of the scenario with the exchange under way. *)
Definition hello_page : Part000.page :=
  {| Part000.state := hello_sending; Part000.in_flight := 1 |}.

(** The code units a JSON value can begin with: a brace, a bracket, a
    double quote, the first letters of [true], [false] and [null], a minus
    sign and the digits. *)
Definition begins_value (c : N) : bool :=
  chr_is "{" c || chr_is "[" c || N.eqb c dquote || chr_is "t" c
  || chr_is "f" c || chr_is "n" c || chr_is "-" c || JSON.is_digit c.

(** The text, after its leading white space, begins like a JSON value. *)
Definition looks_like_json (s : jsstring) : bool :=
  match JSON.skip_ws s with
  | [] => false
  | c :: _ => begins_value c
  end.

(** The keys of the objects inside a value are distinct. *)
Fixpoint distinct_keys (v : value) : Prop :=
  match v with
  | VArray l =>
      (fix all (l : list value) : Prop :=
         match l with
         | [] => True
         | x :: r => distinct_keys x /\ all r
         end) l
  | VObject o =>
      NoDup (List.map fst o) /\
      (fix all (o : list (jsstring * value)) : Prop :=
         match o with
         | [] => True
         | kv :: r => distinct_keys (snd kv) /\ all r
         end) o
  | _ => True
  end.

(** A message with a quote, a backslash, a line feed and a lone
    surrogate. *)
Definition awkward_message : jsstring :=
  (str "say " ++ [34; 92; 10; 55357] ++ str " twice")%N.

(** The assistant list of the scenario and the response that carries it. *)
Definition legal_assistant : value :=
  VObject [(str "id", VString (str "a1")); (str "name", VString (str "Legal"))].

Definition assistants_response : fetch_outcome :=
  Responded 200 (json_text "{'assistants':[{'id':'a1','name':'Legal'}]}").

Example parse_ex1 :
  JSON.parse (json_text "{'a': [1, -2.50e3, true, null], 'aA': 'x\n'} ")
  = Some (VObject [(str "a", VArray [VNumber (Dec false 1 0);
                                     VNumber (Dec true 250 1);
                                     VBool true; VNull]);
                   (str "aA", VString (str "x" ++ [10%N]))]).
Proof. vm_compute. reflexivity. Qed.

(* ================================================================== *)
(** ** The recursion budget of [JSON.parse] is never exhausted *)
(* ================================================================== *)

(** The scenario of the partial analysis: the fields that are not there
    show their placeholder. *)
Example interpret_partial_analysis :
  fst (Part000.interpret no_number
         (VString (json_text
            "{'analysis':{'final_answer':'Approve','analysis':{'risk_assessment':'Low'}}}")))
  = StructuredAnalysis (VString (str "Approve")) (VString (str "Low")) n_a n_a.
Proof. vm_compute. reflexivity. Qed.

(** Plain prose is shown as it is. *)
Example interpret_prose :
  fst (Part000.interpret no_number (VString (str "hi there")))
  = PlainText (VString (str "hi there")).
Proof. vm_compute. reflexivity. Qed.

(** The scenario of the greeting: the store while pending and after the
    reply. *)
Example hello_scenario :
  conversations hello_sending
  = [{| role := user; content := Raw (VString (str "hello")) |}] /\
  loading hello_sending = true /\
  fst (Part000.sendMessage_resume no_number hi_there hello_sending)
  = {| message := [];
       conversations :=
         [{| role := user; content := Raw (VString (str "hello")) |};
          {| role := assistant;
             content := PlainText (VString (str "hi there")) |}];
       assistants := VArray [];
       selectedAssistant := str "a1";
       loading := false |}.
Proof. repeat split; vm_compute; reflexivity. Qed.

(** A falsy number is replaced like an empty string; a number that is not
    zero is kept. *)
Example interpret_numbers :
  fst (Part000.interpret no_number
         (VString (json_text "{'analysis':{'final_answer':0.0,'analysis':{'risk_assessment':7}}}")))
  = StructuredAnalysis not_provided (VNumber (Dec false 7 0)) n_a n_a.
Proof. vm_compute. reflexivity. Qed.

Module JSONFacts.
Import JSON.

Lemma skip_ws_length (s : jsstring) : length (skip_ws s) <= length s.
Proof.
  induction s as [|c r IH]; simpl; [lia|].
  destruct (is_ws c); simpl; lia.
Qed.

Lemma skip_ws_cons (s r : jsstring) (c : N) :
  skip_ws s = c :: r -> length r < length s.
Proof.
  intros H. pose proof (skip_ws_length s) as L. rewrite H in L. simpl in L. lia.
Qed.

Lemma parse_chars_fuel (s acc : jsstring) : parse_chars acc s <> OutOfFuel.
Proof.
  remember (length s) as n eqn:Hn.
  revert s acc Hn. induction n as [n IH] using lt_wf_ind. intros s acc Hn.
  destruct s as [|c r]; simpl; [discriminate|].
  destruct (N.eqb c dquote); [discriminate|].
  destruct (chr_is "\" c).
  - destruct r as [|e r1]; [discriminate|].
    destruct (chr_is "u" e).
    + destruct r1 as [|h1 [|h2 [|h3 [|h4 r2]]]]; try discriminate.
      destruct (hex4 h1 h2 h3 h4); [|discriminate].
      eapply IH; [|reflexivity]. subst n. simpl. lia.
    + destruct (escape e); [|discriminate].
      eapply IH; [|reflexivity]. subst n. simpl. lia.
  - destruct (N.ltb c 32); [discriminate|].
    eapply IH; [|reflexivity]. subst n. simpl. lia.
Qed.

Lemma parse_chars_length (s acc x r : jsstring) :
  parse_chars acc s = Ok x r -> length r < length s.
Proof.
  remember (length s) as n eqn:Hn.
  revert s acc Hn. induction n as [n IH] using lt_wf_ind. intros s acc Hn.
  destruct s as [|c r0]; simpl; [discriminate|].
  destruct (N.eqb c dquote).
  { intros H. injection H as _ <-. subst n. simpl. lia. }
  destruct (chr_is "\" c).
  - destruct r0 as [|e r1]; [discriminate|].
    destruct (chr_is "u" e).
    + destruct r1 as [|h1 [|h2 [|h3 [|h4 r2]]]]; try discriminate.
      destruct (hex4 h1 h2 h3 h4); [|discriminate].
      intros H. eapply IH in H; [| |reflexivity]; subst n; simpl in *; lia.
    + destruct (escape e); [|discriminate].
      intros H. eapply IH in H; [| |reflexivity]; subst n; simpl in *; lia.
  - destruct (N.ltb c 32); [discriminate|].
    intros H. eapply IH in H; [| |reflexivity]; subst n; simpl in *; lia.
Qed.

Lemma parse_digits_length (s : jsstring) (acc : N) (count : nat) :
  length (snd (parse_digits acc count s)) <= length s.
Proof.
  revert acc count. induction s as [|c r IH]; intros acc count; simpl; [lia|].
  destruct (is_digit c); simpl; [|lia].
  specialize (IH (acc * 10 + (c - 48))%N (S count)). lia.
Qed.

Lemma parse_int_length (s r : jsstring) (m : N) :
  parse_int s = Some (m, r) -> length r < length s.
Proof.
  destruct s as [|c r0]; simpl; [discriminate|].
  destruct (chr_is "0" c).
  { intros H. injection H as _ <-. lia. }
  destruct (is_digit c); [|discriminate].
  pose proof (parse_digits_length r0 (c - 48)%N 1) as L.
  destruct (parse_digits (c - 48)%N 1 r0) as [[m' k] r']. simpl in L.
  intros H. injection H as _ <-. lia.
Qed.

Lemma parse_frac_length (s r : jsstring) (m m' : N) (k : nat) :
  parse_frac m s = Some (m', k, r) -> length r <= length s.
Proof.
  destruct s as [|c r0]; simpl.
  { intros H. injection H as _ _ <-. simpl. lia. }
  destruct (chr_is "." c).
  - pose proof (parse_digits_length r0 m 0) as L.
    destruct (parse_digits m 0 r0) as [[m1 k1] r1]. simpl in L.
    destruct k1; [discriminate|].
    intros H. injection H as _ _ <-. lia.
  - intros H. injection H as _ _ <-. simpl. lia.
Qed.

Lemma parse_exp_length (s r : jsstring) (e : Z) :
  parse_exp s = Some (e, r) -> length r <= length s.
Proof.
  destruct s as [|c r0]; simpl.
  { intros H. injection H as _ <-. simpl. lia. }
  destruct (chr_is "e" c || chr_is "E" c).
  - assert (forall minus r1, length r1 <= length r0 ->
              match parse_digits 0 0 r1 with
              | (_, O, _) => None
              | (e0, _, r2) =>
                  Some (if minus : bool then (- Z.of_N e0)%Z else Z.of_N e0, r2)
              end = Some (e, r) -> length r <= S (length r0)) as K.
    { intros minus r1 L1.
      pose proof (parse_digits_length r1 0%N 0) as L.
      destruct (parse_digits 0%N 0 r1) as [[e0 k0] r2]. simpl in L.
      destruct k0; [discriminate|].
      intros H. injection H as _ <-. lia. }
    destruct r0 as [|sg r1].
    + apply (K false []). simpl. lia.
    + destruct (chr_is "-" sg); [apply (K true r1); simpl; lia|].
      destruct (chr_is "+" sg); [apply (K false r1); simpl; lia|].
      apply (K false (sg :: r1)). simpl. lia.
  - intros H. injection H as _ <-. simpl. lia.
Qed.

Lemma parse_number_fuel (s : jsstring) : parse_number s <> OutOfFuel.
Proof.
  unfold parse_number.
  destruct (match s with
            | c :: r => if chr_is "-" c then (true, r) else (false, s)
            | [] => (false, s)
            end) as [neg s1].
  destruct (parse_int s1) as [[m s2]|]; [|discriminate].
  destruct (parse_frac m s2) as [[[m' k] s3]|]; [|discriminate].
  destruct (parse_exp s3) as [[e s4]|]; discriminate.
Qed.

Lemma parse_number_length (s r : jsstring) (n : number) :
  parse_number s = Ok n r -> length r < length s.
Proof.
  unfold parse_number.
  assert (forall neg s1, length s1 <= length s ->
            match parse_int s1 with
            | None => SyntaxError
            | Some (m, s2) =>
                match parse_frac m s2 with
                | None => SyntaxError
                | Some (m', k, s3) =>
                    match parse_exp s3 with
                    | None => SyntaxError
                    | Some (e, s4) => Ok (Dec neg m' (e - Z.of_nat k)) s4
                    end
                end
            end = Ok n r -> length r < length s) as K.
  { intros neg s1 L1.
    destruct (parse_int s1) as [[m s2]|] eqn:E1; [|discriminate].
    destruct (parse_frac m s2) as [[[m' k] s3]|] eqn:E2; [|discriminate].
    destruct (parse_exp s3) as [[e s4]|] eqn:E3; [|discriminate].
    intros H. injection H as _ <-.
    apply parse_int_length in E1. apply parse_frac_length in E2.
    apply parse_exp_length in E3. lia. }
  destruct s as [|c r0]; [apply (K false []); simpl; lia|].
  destruct (chr_is "-" c).
  - apply (K true r0). simpl. lia.
  - apply (K false (c :: r0)). simpl. lia.
Qed.

Lemma strip_prefix_length (w s r : jsstring) :
  strip_prefix w s = Some r -> length r <= length s.
Proof.
  revert s. induction w as [|a w IH]; intros s; simpl.
  - intros H. injection H as <-. lia.
  - destruct s as [|c s']; [discriminate|].
    destruct (N.eqb a c); [|discriminate].
    intros H. apply IH in H. simpl. lia.
Qed.

(** The unread input of a result that has just been built. *)
Ltac ok_inv H := injection H as _ <-.

(** A branch that ends in a [SyntaxError]. *)
Ltac dead := split; [discriminate|intros; discriminate].

Lemma parse_value_step (fuel : nat) :
  enough_for_elements fuel -> enough_for_members fuel ->
  enough_for_value (S fuel).
Proof.
  intros HE HM s Hs. cbn [parse_value].
  destruct (skip_ws s) as [|c r] eqn:E0; [dead|].
  apply skip_ws_cons in E0.
  destruct (chr_is "{" c).
  { destruct (skip_ws r) as [|c' r'] eqn:E1; [dead|].
    apply skip_ws_cons in E1.
    destruct (chr_is "}" c').
    - split; [discriminate|]. intros v r0 H. ok_inv H. lia.
    - destruct (HM [] r) as [F L]; [lia|]. split; [exact F|].
      intros v r0 H. apply L in H. lia. }
  destruct (chr_is "[" c).
  { destruct (skip_ws r) as [|c' r'] eqn:E1; [dead|].
    apply skip_ws_cons in E1.
    destruct (chr_is "]" c').
    - split; [discriminate|]. intros v r0 H. ok_inv H. lia.
    - destruct (HE [] r) as [F L]; [lia|]. split; [exact F|].
      intros v r0 H. apply L in H. lia. }
  destruct (N.eqb c dquote).
  { pose proof (parse_chars_fuel r []) as F.
    destruct (parse_chars [] r) as [x r'| |] eqn:E1.
    - apply parse_chars_length in E1. split; [discriminate|].
      intros v r0 H. ok_inv H. lia.
    - dead.
    - contradiction. }
  destruct (chr_is "t" c).
  { destruct (strip_prefix (str "rue") r) as [r'|] eqn:E1;
      [|dead].
    apply strip_prefix_length in E1. split; [discriminate|].
    intros v r0 H. ok_inv H. lia. }
  destruct (chr_is "f" c).
  { destruct (strip_prefix (str "alse") r) as [r'|] eqn:E1;
      [|dead].
    apply strip_prefix_length in E1. split; [discriminate|].
    intros v r0 H. ok_inv H. lia. }
  destruct (chr_is "n" c).
  { destruct (strip_prefix (str "ull") r) as [r'|] eqn:E1;
      [|dead].
    apply strip_prefix_length in E1. split; [discriminate|].
    intros v r0 H. ok_inv H. lia. }
  pose proof (parse_number_fuel (c :: r)) as F.
  destruct (parse_number (c :: r)) as [n r'| |] eqn:E1.
  - apply parse_number_length in E1. simpl in E1. split; [discriminate|].
    intros v r0 H. ok_inv H. lia.
  - dead.
  - contradiction.
Qed.

Lemma parse_fuel_all (fuel : nat) :
  enough_for_value fuel /\ enough_for_elements fuel /\ enough_for_members fuel.
Proof.
  induction fuel as [|fuel (HV & HE & HM)].
  { repeat split; intros; lia. }
  split; [apply parse_value_step; assumption|]. split.
  - intros acc s Hs. revert acc.
    change (forall acc,
      match parse_value fuel s with
      | Ok v r =>
          match skip_ws r with
          | c :: r' =>
              if chr_is "," c then parse_elements fuel (v :: acc) r'
              else if chr_is "]" c then Ok (VArray (rev (v :: acc))) r'
              else SyntaxError
          | [] => SyntaxError
          end
      | SyntaxError => SyntaxError
      | OutOfFuel => OutOfFuel
      end <> OutOfFuel /\
      forall v r,
      match parse_value fuel s with
      | Ok v r =>
          match skip_ws r with
          | c :: r' =>
              if chr_is "," c then parse_elements fuel (v :: acc) r'
              else if chr_is "]" c then Ok (VArray (rev (v :: acc))) r'
              else SyntaxError
          | [] => SyntaxError
          end
      | SyntaxError => SyntaxError
      | OutOfFuel => OutOfFuel
      end = Ok v r -> length r < length s).
    intros acc. destruct (HV s) as [F L]; [lia|].
    destruct (parse_value fuel s) as [v r| |] eqn:E0;
      [|dead|contradiction].
    specialize (L _ _ eq_refl).
    destruct (skip_ws r) as [|c r'] eqn:E1; [dead|].
    apply skip_ws_cons in E1.
    destruct (chr_is "," c).
    + destruct (HE (v :: acc) r') as [F' L']; [lia|]. split; [exact F'|].
      intros v0 r0 H. apply L' in H. lia.
    + destruct (chr_is "]" c); [|dead].
      split; [discriminate|]. intros v0 r0 H. ok_inv H. lia.
  - intros acc s Hs. cbn [parse_members].
    destruct (skip_ws s) as [|c r] eqn:E0; [dead|].
    apply skip_ws_cons in E0.
    destruct (N.eqb c dquote); [|dead].
    pose proof (parse_chars_fuel r []) as Fk.
    destruct (parse_chars [] r) as [k r1| |] eqn:E1;
      [|dead|contradiction].
    apply parse_chars_length in E1.
    destruct (skip_ws r1) as [|c1 r2] eqn:E2; [dead|].
    apply skip_ws_cons in E2.
    destruct (chr_is ":" c1); [|dead].
    destruct (HV r2) as [F L]; [lia|].
    destruct (parse_value fuel r2) as [v r3| |] eqn:E3;
      [|dead|contradiction].
    specialize (L _ _ eq_refl).
    destruct (skip_ws r3) as [|c3 r4] eqn:E4; [dead|].
    apply skip_ws_cons in E4.
    destruct (chr_is "," c3).
    + destruct (HM (define_property k v acc) r4) as [F' L']; [lia|].
      split; [exact F'|]. intros v0 r0 H. apply L' in H. lia.
    + destruct (chr_is "}" c3); [|dead].
      split; [discriminate|]. intros v0 r0 H. ok_inv H. lia.
Qed.

(** [JSON.parse] always has budget to spare: a [None] of [JSON.parse] is a
    [SyntaxError], never an exhausted budget. *)
Lemma parse_fuel_enough (text : jsstring) :
  parse_value (fuel_for text) text <> OutOfFuel.
Proof.
  destruct (parse_fuel_all (fuel_for text)) as (HV & _).
  apply HV. unfold fuel_for. lia.
Qed.

End JSONFacts.

(* ================================================================== *)
(** ** Facts about values, [trim] and the interpreter *)
(* ================================================================== *)

Module Facts.
Import JSON.

(** Every way a parsing function returns a value builds it with a
    constructor other than [VUndefined]. *)
Ltac split_matches H :=
  repeat match type of H with
         | context [match ?x with _ => _ end] => destruct x eqn:?
         end.

Lemma parse_defined_all (fuel : nat) :
  (forall s v r, parse_value fuel s = Ok v r -> v <> VUndefined) /\
  (forall acc s v r, parse_elements fuel acc s = Ok v r -> v <> VUndefined) /\
  (forall acc s v r, parse_members fuel acc s = Ok v r -> v <> VUndefined).
Proof.
  induction fuel as [|fuel (HV & HE & HM)].
  { repeat split; intros; discriminate. }
  split; [|split].
  - intros s v r. cbn [parse_value]. intros H.
    destruct (skip_ws s) as [|c r0]; [discriminate|].
    destruct (chr_is "{" c).
    { destruct (skip_ws r0) as [|c' r']; [discriminate|].
      destruct (chr_is "}" c'); [injection H as <- _; discriminate|].
      eapply HM; eassumption. }
    destruct (chr_is "[" c).
    { destruct (skip_ws r0) as [|c' r']; [discriminate|].
      destruct (chr_is "]" c'); [injection H as <- _; discriminate|].
      eapply HE; eassumption. }
    split_matches H; try discriminate; injection H as <- _; discriminate.
  - intros acc s v r. cbn [parse_elements]. intros H.
    destruct (parse_value fuel s) as [v0 r0| |]; try discriminate.
    destruct (skip_ws r0) as [|c r']; [discriminate|].
    destruct (chr_is "," c); [eapply HE; eassumption|].
    destruct (chr_is "]" c); [|discriminate].
    injection H as <- _. discriminate.
  - intros acc s v r. cbn [parse_members]. intros H.
    destruct (skip_ws s) as [|c r0]; [discriminate|].
    destruct (N.eqb c dquote); [|discriminate].
    destruct (parse_chars [] r0) as [k r1| |]; try discriminate.
    destruct (skip_ws r1) as [|c1 r2]; [discriminate|].
    destruct (chr_is ":" c1); [|discriminate].
    destruct (parse_value fuel r2) as [v0 r3| |]; try discriminate.
    destruct (skip_ws r3) as [|c3 r4]; [discriminate|].
    destruct (chr_is "," c3); [eapply HM; eassumption|].
    destruct (chr_is "}" c3); [|discriminate].
    injection H as <- _. discriminate.
Qed.

(** [JSON.parse] never returns [undefined]. *)
Lemma parse_defined (text : jsstring) (v : value) :
  parse text = Some v -> v <> VUndefined.
Proof.
  unfold parse. intros H.
  destruct (parse_value (fuel_for text) text) as [v0 r| |] eqn:E;
    try discriminate.
  destruct (skip_ws r); [|discriminate].
  injection H as <-.
  destruct (parse_defined_all (fuel_for text)) as (HV & _).
  eapply HV; eassumption.
Qed.

Lemma parse_nullish (text : jsstring) (v : value) :
  parse text = Some v -> nullish v = true -> v = VNull.
Proof.
  intros H N. apply parse_defined in H.
  destruct v; try discriminate; [contradiction|reflexivity].
Qed.

Lemma jsstring_eqb_refl (a : jsstring) : jsstring_eqb a a = true.
Proof.
  induction a as [|x a IH]; simpl; [reflexivity|].
  rewrite N.eqb_refl. exact IH.
Qed.

Lemma jsstring_eqb_eq (a b : jsstring) : jsstring_eqb a b = true <-> a = b.
Proof.
  split; [|intros ->; apply jsstring_eqb_refl].
  revert b. induction a as [|x a IH]; intros [|y b]; simpl; try discriminate.
  - reflexivity.
  - intros H. apply andb_prop in H as [H1 H2].
    apply N.eqb_eq in H1. apply IH in H2. congruence.
Qed.

(** A key that an object does not have reads as [undefined]. *)
Lemma own_property_absent (o : list (jsstring * value)) (k : jsstring) :
  existsb (fun kv => jsstring_eqb k (fst kv)) o = false ->
  own_property o k = VUndefined.
Proof.
  induction o as [|[k' v] o IH]; simpl; [reflexivity|].
  intros H. apply orb_false_elim in H as [H1 H2].
  rewrite H1. auto.
Qed.

Lemma get_property_absent (v : value) (k : jsstring) :
  has_key v k = false -> get_property v k = VUndefined.
Proof.
  destruct v; simpl; try reflexivity. apply own_property_absent.
Qed.

(** A string of white space trims to nothing. *)
Lemma trim_start_white (s : jsstring) :
  (forall c, In c s -> is_white_space c = true) -> trim_start s = [].
Proof.
  induction s as [|c r IH]; intros H; simpl; [reflexivity|].
  rewrite (H c (or_introl eq_refl)). apply IH.
  intros x Hx. apply H. right. exact Hx.
Qed.

Lemma trim_white (s : jsstring) :
  (forall c, In c s -> is_white_space c = true) -> trim s = [].
Proof.
  intros H. unfold trim. rewrite (trim_start_white s H). reflexivity.
Qed.

(** A string with a code unit that is not white space does not. *)
Lemma trim_start_nonempty (s : jsstring) (c : N) :
  In c s -> is_white_space c = false -> trim_start s <> [].
Proof.
  induction s as [|x r IH]; simpl; [intros []|].
  intros [->|Hin] Hc.
  - rewrite Hc. discriminate.
  - destruct (is_white_space x); [auto|discriminate].
Qed.

Lemma trim_start_keeps (s : jsstring) (c : N) :
  In c s -> is_white_space c = false -> In c (trim_start s).
Proof.
  induction s as [|x r IH]; simpl; [intros []|].
  intros [->|Hin] Hc.
  - rewrite Hc. left. reflexivity.
  - destruct (is_white_space x); [auto|]. right. exact Hin.
Qed.

Lemma trim_nonempty (s : jsstring) (c : N) :
  In c s -> is_white_space c = false -> trim s <> [].
Proof.
  intros Hin Hc. unfold trim.
  assert (In c (rev (trim_start s))) as H1.
  { apply -> in_rev. apply trim_start_keeps; assumption. }
  pose proof (trim_start_nonempty _ _ H1 Hc) as H2.
  intros E. apply H2.
  apply (f_equal (@rev N)) in E. rewrite rev_involutive in E. exact E.
Qed.

Section Interpreter.

Variable Number_toString : number -> jsstring.

(** What the interpreter makes of a string: the paragraph when the string
    does not parse or parses to [null], the card otherwise. *)
Lemma interpret_text (s : jsstring) :
  fst (Part000.interpret Number_toString (VString s)) =
  match parse s with
  | None => PlainText (VString s)
  | Some parsed =>
      if nullish parsed then PlainText (VString s)
      else StructuredAnalysis
             (Part000.final_answer_slot parsed)
             (detail parsed (str "risk_assessment"))
             (detail parsed (str "documentation_and_approvals"))
             (detail parsed (str "procurement_strategy"))
  end.
Proof.
  unfold Part000.interpret, JSON_parse. cbn [ToString].
  destruct (parse s) as [parsed|]; [|reflexivity].
  unfold Part000.detail_slot, member.
  destruct (nullish parsed); reflexivity.
Qed.

(** The interpreter turns every value into a paragraph or a card. *)
Lemma interpret_shape (content : value) :
  fst (Part000.interpret Number_toString content) = PlainText content \/
  exists fa ra da ps,
    fst (Part000.interpret Number_toString content)
    = StructuredAnalysis fa ra da ps.
Proof.
  unfold Part000.interpret.
  destruct (JSON_parse Number_toString content) as [parsed|];
    [|left; reflexivity].
  unfold Part000.detail_slot, member.
  destruct (nullish parsed); [left; reflexivity|].
  right. do 4 eexists. reflexivity.
Qed.

End Interpreter.

End Facts.

(* ================================================================== *)
(** ** Facts about [sendMessage] *)
(* ================================================================== *)

Module HandlerFacts.

Section Part000.

Variable API_URL : jsstring.
Variable Number_toString : number -> jsstring.

Local Abbreviation sendMessage := (Part000.sendMessage API_URL).
Local Abbreviation sendMessage_resume :=
  (Part000.sendMessage_resume Number_toString).
Local Abbreviation interpret := (Part000.interpret Number_toString).

Lemma sendMessage_refused (st : SessionState) :
  refused st = true -> sendMessage st = (st, None).
Proof. unfold Part000.sendMessage. intros ->. reflexivity. Qed.

Lemma sendMessage_accepted (st : SessionState) :
  refused st = false ->
  fst (sendMessage st)
  = setConversations (append (newMessage st)) (setLoading true st) /\
  exists req, snd (sendMessage st) = Some req /\
    url req = API_URL ++ str "/chat/" /\
    assistant_id req = selectedAssistant st /\
    body req = chat_body st.
Proof.
  unfold Part000.sendMessage. intros ->. split; [reflexivity|].
  eexists. split; [reflexivity|]. repeat split.
Qed.

(** A failed exchange ends in the [catch] and the [finally]. *)
Lemma resume_failed (o : fetch_outcome) (st : SessionState) :
  exchange_fails o = true ->
  exists e,
    sendMessage_resume o st
    = (setMessage [] (setLoading false st),
       [console_error (str "Error sending message:") e]).
Proof.
  unfold Part000.sendMessage_resume, exchange_fails, await_data.
  destruct o as [|status text]; [intros _; eexists; reflexivity|].
  destruct (JSON.parse text) as [data|]; [|intros _; eexists; reflexivity].
  unfold member. intros ->. eexists. reflexivity.
Qed.

(** Any other exchange appends the interpreted reply first. *)
Lemma resume_answered (o : fetch_outcome) (st : SessionState) :
  exchange_fails o = false ->
  exists content,
    sendMessage_resume o st
    = (setMessage []
         (setLoading false
            (setConversations (append (reply (fst (interpret content)))) st)),
       snd (interpret content)).
Proof.
  unfold Part000.sendMessage_resume, exchange_fails, await_data.
  destruct o as [|status text]; [discriminate|].
  destruct (JSON.parse text) as [data|]; [|discriminate].
  unfold member. intros ->. exists (get_property data (str "response")).
  destruct (interpret (get_property data (str "response"))). reflexivity.
Qed.

(** On the page, an exchange is in flight exactly while [loading] is set. *)
Lemma in_flight_loading (p : Part000.page) :
  Part000.reachable API_URL Number_toString p ->
  Part000.in_flight p = if loading (Part000.state p) then 1 else 0.
Proof.
  induction 1 as [|p q Hp IH Hstep]; [reflexivity|].
  destruct Hstep as [text p Hd|id p|p Hd|o p|o p Hpos];
    cbn [Part000.state Part000.in_flight].
  - exact IH.
  - exact IH.
  - unfold disabled in Hd. apply orb_false_elim in Hd as [Hl _].
    rewrite Hl in IH. unfold Part000.sendMessage.
    destruct (refused (Part000.state p)); cbn [fst snd].
    + rewrite Hl. exact IH.
    + cbn. rewrite IH. reflexivity.
  - unfold Part000.fetchAssistants_resume.
    destruct (await_data o) as [data|e]; [|exact IH].
    destruct (member data (str "assistants")); exact IH.
  - destruct (loading (Part000.state p)); [|lia].
    rewrite IH.
    destruct (exchange_fails o) eqn:E.
    + destruct (resume_failed o (Part000.state p) E) as [e ->]. reflexivity.
    + destruct (resume_answered o (Part000.state p) E) as [c ->]. reflexivity.
Qed.

End Part000.

Lemma page_js_refused (st : SessionState) :
  refused st = true -> PageJs.sendMessage st = (st, None).
Proof. unfold PageJs.sendMessage. intros ->. reflexivity. Qed.

Lemma page_js_accepted (st : SessionState) :
  refused st = false ->
  fst (PageJs.sendMessage st)
  = setConversations (append (newMessage st)) (setLoading true st) /\
  exists req, snd (PageJs.sendMessage st) = Some req /\
    assistant_id req = selectedAssistant st /\
    body req = chat_body st.
Proof.
  unfold PageJs.sendMessage. intros ->. split; [reflexivity|].
  eexists. split; [reflexivity|]. split; reflexivity.
Qed.

(** The three ways [sendMessage] of [page.js] can end. *)
Lemma page_js_resume_cases (o : fetch_outcome) (st : SessionState) :
  (exchange_fails o = true /\
   fst (PageJs.sendMessage_resume o st)
   = Some (setMessage [] (setLoading false st))) \/
  (exchange_fails o = true /\
   fst (PageJs.sendMessage_resume o st) = None /\
   exists status text, o = Responded status text /\
                       JSON.parse text = Some VNull) \/
  (exchange_fails o = false /\
   exists response,
     fst (PageJs.sendMessage_resume o st)
     = Some (setMessage []
               (setLoading false
                  (setConversations (append (reply (Raw response))) st)))).
Proof.
  unfold PageJs.sendMessage_resume, exchange_fails, await_data.
  destruct o as [|status text]; [left; split; reflexivity|].
  destruct (JSON.parse text) as [data|] eqn:E; [|left; split; reflexivity].
  unfold member. destruct (nullish data) eqn:N.
  - right. left. repeat split. exists status, text. split; [reflexivity|].
    rewrite E. f_equal. exact (Facts.parse_nullish _ _ E N).
  - right. right. split; [reflexivity|]. eexists. reflexivity.
Qed.

Lemma refused_cases (st : SessionState) :
  refused st = true <->
  trim (message st) = [] \/ selectedAssistant st = [].
Proof.
  unfold refused, is_empty. rewrite orb_true_iff.
  destruct (trim (message st)), (selectedAssistant st); split; intros [H|H];
    auto; discriminate.
Qed.

End HandlerFacts.

(* ================================================================== *)
(** ** The response interpreter *)
(* ================================================================== *)

Lemma optional_member_non_object (v : value) (k : jsstring) :
  is_object v = false -> optional_member v k = VUndefined.
Proof. destruct v; simpl; try reflexivity. discriminate. Qed.

Lemma non_object_renders_placeholders (parsed : value) :
  is_object (get_property parsed (str "analysis")) = false ->
  nullish parsed = false ->
  Part000.final_answer_slot parsed = not_provided /\
  forall field, detail parsed field = n_a.
Proof.
  intros Hobj Hnull.
  unfold Part000.final_answer_slot, detail, optional_member at 2.
  rewrite Hnull. split.
  - rewrite (optional_member_non_object _ _ Hobj). reflexivity.
  - intros field.
    rewrite (optional_member_non_object _ (str "analysis") Hobj). reflexivity.
Qed.

(** A string that parses to a value other than [null] becomes the card. *)
Lemma interpret_parsed (Number_toString : number -> jsstring)
    (s : jsstring) (parsed : value) :
  JSON.parse s = Some parsed -> parsed <> VNull ->
  nullish parsed = false /\
  fst (Part000.interpret Number_toString (VString s))
  = StructuredAnalysis
      (Part000.final_answer_slot parsed)
      (detail parsed (str "risk_assessment"))
      (detail parsed (str "documentation_and_approvals"))
      (detail parsed (str "procurement_strategy")).
Proof.
  intros Hparse Hnn.
  assert (nullish parsed = false) as Hnull.
  { destruct (nullish parsed) eqn:E; [|reflexivity].
    elim Hnn. exact (Facts.parse_nullish _ _ Hparse E). }
  split; [exact Hnull|].
  rewrite Facts.interpret_text, Hparse, Hnull. reflexivity.
Qed.

Lemma interpret_without_analysis_object (Number_toString : number -> jsstring)
    (s : jsstring) (parsed : value) :
  JSON.parse s = Some parsed -> parsed <> VNull ->
  is_object (get_property parsed (str "analysis")) = false ->
  fst (Part000.interpret Number_toString (VString s)) = placeholders.
Proof.
  intros Hparse Hnn Hobj.
  destruct (interpret_parsed Number_toString _ _ Hparse Hnn) as [Hnull ->].
  destruct (non_object_renders_placeholders parsed Hobj Hnull) as [-> Hd].
  rewrite !Hd. reflexivity.
Qed.

Lemma interpret_null (Number_toString : number -> jsstring) (s : jsstring) :
  JSON.parse s = Some VNull ->
  fst (Part000.interpret Number_toString (VString s)) = PlainText (VString s).
Proof. intros H. rewrite Facts.interpret_text, H. reflexivity. Qed.

(** C1, as stated, does not hold: the reply [{}] parses, has no nested
    analysis object, and is rendered as the analysis card with its four
    placeholders, not as plain text. *)
Lemma C1_counterexample_empty_object :
  JSON.parse (json_text "{}") = Some (VObject []) /\
  get_property (VObject []) (str "analysis") = VUndefined /\
  fst (Part000.interpret no_number (VString (json_text "{}"))) = placeholders /\
  placeholders <> PlainText (VString (json_text "{}")).
Proof.
  split; [vm_compute; reflexivity|]. split; [reflexivity|].
  split; [vm_compute; reflexivity|]. discriminate.
Qed.

(** C1, amended: for every reply string that parses to a value other than
    [null] and whose [analysis] property is not an object, the interpreter
    yields the analysis card with all four placeholders; the card is what
    every string that parses to a value other than [null] yields, and the
    plain text equal to the original string is what a string that parses to
    [null] yields. *)
Theorem C1_missing_analysis_renders_placeholders
    (Number_toString : number -> jsstring) (s : jsstring) (parsed : value) :
  JSON.parse s = Some parsed ->
  (parsed <> VNull ->
   (exists fa ra da ps,
      fst (Part000.interpret Number_toString (VString s))
      = StructuredAnalysis fa ra da ps) /\
   (is_object (get_property parsed (str "analysis")) = false ->
    fst (Part000.interpret Number_toString (VString s)) = placeholders)) /\
  (parsed = VNull ->
   fst (Part000.interpret Number_toString (VString s)) = PlainText (VString s)).
Proof.
  intros Hparse. split.
  - intros Hnn. split.
    + destruct (interpret_parsed Number_toString _ _ Hparse Hnn) as [_ ->].
      do 4 eexists. reflexivity.
    + apply interpret_without_analysis_object; assumption.
  - intros ->. apply interpret_null. exact Hparse.
Qed.

Lemma C1_witness_empty_object :
  fst (Part000.interpret no_number (VString (json_text "{}"))) = placeholders.
Proof.
  refine (proj2 (proj1 (C1_missing_analysis_renders_placeholders no_number
                          (json_text "{}") (VObject []) _) _) _).
  - vm_compute. reflexivity.
  - discriminate.
  - reflexivity.
Defined.

(** C9: a reply string that parses to a value which is not an object with
    an [analysis] key, and is not [null], is rendered as the analysis card
    with every slot at its placeholder; plain text is produced only when
    [JSON.parse] throws or returns [null] (where the member access
    throws). *)
Theorem C9_json_without_analysis_key_renders_placeholders
    (Number_toString : number -> jsstring) (s : jsstring) :
  (forall parsed,
     JSON.parse s = Some parsed -> parsed <> VNull ->
     has_key parsed (str "analysis") = false ->
     fst (Part000.interpret Number_toString (VString s)) = placeholders) /\
  (fst (Part000.interpret Number_toString (VString s)) = PlainText (VString s)
   <-> JSON.parse s = None \/ JSON.parse s = Some VNull).
Proof.
  split.
  - intros parsed Hparse Hnn Hkey.
    apply (interpret_without_analysis_object Number_toString _ _ Hparse Hnn).
    rewrite (Facts.get_property_absent _ _ Hkey). reflexivity.
  - rewrite Facts.interpret_text. split.
    + destruct (JSON.parse s) as [parsed|] eqn:E; [|left; reflexivity].
      destruct (nullish parsed) eqn:N; [|discriminate].
      intros _. right. f_equal. exact (Facts.parse_nullish _ _ E N).
    + intros [->| ->]; reflexivity.
Qed.

Lemma C9_witness_number_boolean_string :
  fst (Part000.interpret no_number (VString (json_text "5"))) = placeholders /\
  fst (Part000.interpret no_number (VString (json_text "true"))) = placeholders /\
  fst (Part000.interpret no_number (VString (json_text "'hello'")))
  = placeholders /\
  fst (Part000.interpret no_number (VString (json_text "null")))
  = PlainText (VString (json_text "null")).
Proof.
  split; [|split; [|split]].
  - apply (proj1 (C9_json_without_analysis_key_renders_placeholders
                    no_number (json_text "5"))
             (VNumber (Dec false 5 0)));
      [vm_compute; reflexivity|discriminate|reflexivity].
  - apply (proj1 (C9_json_without_analysis_key_renders_placeholders
                    no_number (json_text "true")) (VBool true));
      [vm_compute; reflexivity|discriminate|reflexivity].
  - apply (proj1 (C9_json_without_analysis_key_renders_placeholders
                    no_number (json_text "'hello'")) (VString (str "hello")));
      [vm_compute; reflexivity|discriminate|reflexivity].
  - apply (proj2 (C9_json_without_analysis_key_renders_placeholders
                    no_number (json_text "null"))).
    right. vm_compute. reflexivity.
Defined.

(** The four slots of a document that has the analysis and its inner
    analysis. *)
Lemma slots_of_fields (parsed fa ra da ps : value) :
  has_fields parsed fa ra da ps ->
  nullish parsed = false /\
  Part000.final_answer_slot parsed = or_else fa not_provided /\
  detail parsed (str "risk_assessment") = or_else ra n_a /\
  detail parsed (str "documentation_and_approvals") = or_else da n_a /\
  detail parsed (str "procurement_strategy") = or_else ps n_a.
Proof.
  intros (a & inner & Ha & Hfa & Hinner & Hra & Hda & Hps).
  assert (nullish parsed = false) as Hnull.
  { destruct parsed; try reflexivity; discriminate. }
  split; [exact Hnull|].
  unfold Part000.final_answer_slot, detail, optional_member.
  rewrite Hnull. cbv iota. rewrite Ha. cbn [nullish get_property].
  rewrite Hfa, Hinner. cbn [nullish get_property].
  rewrite Hra, Hda, Hps. repeat split.
Qed.

(** C6, as stated, does not hold: a document that has all four fields, the
    final answer being the empty string, is rendered with [Not provided] in
    the place of the final answer, not with the empty string. *)
Lemma C6_counterexample_empty_final_answer :
  (exists parsed,
     JSON.parse empty_final_answer = Some parsed /\
     has_fields parsed (VString []) (VString (str "Low"))
                (VString (str "Signed")) (VString (str "Tender"))) /\
  fst (Part000.interpret no_number (VString empty_final_answer))
  = StructuredAnalysis not_provided (VString (str "Low"))
      (VString (str "Signed")) (VString (str "Tender")) /\
  final_answer_of (fst (Part000.interpret no_number (VString empty_final_answer)))
  <> Some (VString []).
Proof.
  split; [|split].
  - eexists. split; [vm_compute; reflexivity|].
    do 2 eexists. repeat split; reflexivity.
  - vm_compute. reflexivity.
  - vm_compute. discriminate.
Qed.

(** C6, amended: for every reply string that is a structured document
    containing all four fields with non-empty strings as their values, the
    interpreter yields the analysis card whose four slots carry those
    strings verbatim. *)
Theorem C6_four_non_empty_fields_verbatim
    (Number_toString : number -> jsstring) (s : jsstring) (parsed : value)
    (fa ra da ps : jsstring) :
  JSON.parse s = Some parsed ->
  has_fields parsed (VString fa) (VString ra) (VString da) (VString ps) ->
  fa <> [] -> ra <> [] -> da <> [] -> ps <> [] ->
  fst (Part000.interpret Number_toString (VString s))
  = StructuredAnalysis (VString fa) (VString ra) (VString da) (VString ps).
Proof.
  intros Hparse Hfields Hfa Hra Hda Hps.
  destruct (slots_of_fields _ _ _ _ _ Hfields) as (Hnull & E1 & E2 & E3 & E4).
  rewrite Facts.interpret_text, Hparse, Hnull, E1, E2, E3, E4.
  unfold or_else.
  destruct fa, ra, da, ps; try contradiction; reflexivity.
Qed.

Lemma C6_witness_full_analysis :
  fst (Part000.interpret no_number (VString full_analysis))
  = StructuredAnalysis (VString (str "Approve")) (VString (str "Low"))
      (VString (str "Signed")) (VString (str "Tender")).
Proof.
  refine (C6_four_non_empty_fields_verbatim no_number full_analysis _
            (str "Approve") (str "Low") (str "Signed") (str "Tender")
            _ _ _ _ _ _).
  - vm_compute. reflexivity.
  - do 2 eexists. repeat split; reflexivity.
  - discriminate.
  - discriminate.
  - discriminate.
  - discriminate.
Defined.

(** C10: when a structured reply has one of the four analysis fields with
    the empty string as its value, the slot of that field holds the
    placeholder ([Not provided] for the final answer, [N/A] for the three
    details), as it does for a field that is not there. *)
Theorem C10_empty_field_renders_placeholder
    (Number_toString : number -> jsstring) (s : jsstring)
    (parsed : value) (a : list (jsstring * value)) :
  JSON.parse s = Some parsed ->
  get_property parsed (str "analysis") = VObject a ->
  let shown := fst (Part000.interpret Number_toString (VString s)) in
  (own_property a (str "final_answer") = VString [] ->
   final_answer_of shown = Some not_provided) /\
  (forall inner,
     own_property a (str "analysis") = VObject inner ->
     (own_property inner (str "risk_assessment") = VString [] ->
      risk_assessment_of shown = Some n_a) /\
     (own_property inner (str "documentation_and_approvals") = VString [] ->
      documentation_and_approvals_of shown = Some n_a) /\
     (own_property inner (str "procurement_strategy") = VString [] ->
      procurement_strategy_of shown = Some n_a)).
Proof.
  intros Hparse Ha shown.
  assert (nullish parsed = false) as Hnull.
  { destruct parsed; try reflexivity; discriminate. }
  assert (shown = StructuredAnalysis
                    (Part000.final_answer_slot parsed)
                    (detail parsed (str "risk_assessment"))
                    (detail parsed (str "documentation_and_approvals"))
                    (detail parsed (str "procurement_strategy"))) as ->.
  { unfold shown. rewrite Facts.interpret_text, Hparse, Hnull. reflexivity. }
  cbn [final_answer_of risk_assessment_of documentation_and_approvals_of
       procurement_strategy_of].
  unfold Part000.final_answer_slot, detail, optional_member.
  rewrite Hnull. cbv iota. rewrite Ha. cbn [nullish get_property].
  split.
  - intros ->. reflexivity.
  - intros inner ->. cbn [nullish get_property].
    repeat split; intros ->; reflexivity.
Qed.

Lemma C10_witness_empty_final_answer :
  final_answer_of
    (fst (Part000.interpret no_number (VString empty_final_answer)))
  = Some not_provided.
Proof.
  refine (proj1 (C10_empty_field_renders_placeholder no_number
                   empty_final_answer _ _ _ _) _).
  - vm_compute. reflexivity.
  - reflexivity.
  - reflexivity.
Defined.

(* ================================================================== *)
(** ** The dispatch controller *)
(* ================================================================== *)

(** C2, as stated, does not hold: a response with status 500 whose body is
    a JSON document is not treated as a failure; an assistant turn (the
    paragraph around the missing [response]) is appended after the user's
    turn and nothing is logged as an error. *)
Lemma C2_counterexample_status_500 :
  fails_or_bad_status server_error = true /\
  conversations
    (fst (Part000.sendMessage_resume no_number server_error hello_sending))
  = conversations hello_sending ++ [reply (PlainText VUndefined)] /\
  snd (Part000.sendMessage_resume no_number server_error hello_sending) = [].
Proof. split; [|split]; vm_compute; reflexivity. Qed.

(** C2, amended: for every exchange that fails, that is, [fetch] rejects,
    the body of the response is not JSON, or it is the JSON [null], no
    assistant turn is appended, the failure is logged with
    [console.error] and nothing else happens to the conversation, the user's
    turn included.  The status of the response plays no part: every other
    exchange appends one assistant turn. *)
Theorem C2_failed_exchange_appends_nothing
    (Number_toString : number -> jsstring) (o : fetch_outcome)
    (st : SessionState) :
  let done := Part000.sendMessage_resume Number_toString o st in
  (exchange_fails o = true ->
   conversations (fst done) = conversations st /\
   exists e, snd done = [console_error (str "Error sending message:") e]) /\
  (exchange_fails o = false ->
   exists c, conversations (fst done) = conversations st ++ [reply c]).
Proof.
  intros done. split; intros E.
  - destruct (HandlerFacts.resume_failed Number_toString o st E) as [e He].
    unfold done. rewrite He. split; [reflexivity|]. exists e. reflexivity.
  - destruct (HandlerFacts.resume_answered Number_toString o st E) as [c Hc].
    unfold done. rewrite Hc. eexists. reflexivity.
Qed.

Lemma C2_witness_network_error :
  conversations
    (fst (Part000.sendMessage_resume no_number Rejected hello_sending))
  = conversations hello_sending /\
  exists e,
    snd (Part000.sendMessage_resume no_number Rejected hello_sending)
    = [console_error (str "Error sending message:") e].
Proof.
  apply (proj1 (C2_failed_exchange_appends_nothing
                  no_number Rejected hello_sending)).
  reflexivity.
Defined.

(** The pending guard is in the view, not in the handler: [sendMessage]
    itself does not look at [loading].  The page never runs it in such a
    state, since the form is submitted by the button only, which is
    disabled then. *)
Lemma sendMessage_does_not_test_loading :
  loading hello_sending = true /\
  conversations (fst (Part000.sendMessage example_url hello_sending))
  = conversations hello_sending ++ [newMessage hello_sending] /\
  snd (Part000.sendMessage example_url hello_sending) <> None.
Proof.
  split; [reflexivity|]. split; [vm_compute; reflexivity|].
  vm_compute. discriminate.
Qed.

(** C3: in every state the page can reach through its controls, at most
    one exchange is in flight, and while one is in flight [loading] is set,
    the submit button is disabled, and a submit is a no-op: the state is
    unchanged, no turn is appended and no request is sent. *)
Theorem C3_click_while_sending_is_noop
    (API_URL : jsstring) (Number_toString : number -> jsstring)
    (p : Part000.page) :
  Part000.reachable API_URL Number_toString p ->
  Part000.in_flight p <= 1 /\
  (0 < Part000.in_flight p ->
   loading (Part000.state p) = true /\
   disabled (Part000.state p) = true /\
   Part000.click_submit API_URL (Part000.state p) = (Part000.state p, None)).
Proof.
  intros R.
  pose proof (HandlerFacts.in_flight_loading API_URL Number_toString p R) as I.
  unfold Part000.click_submit, disabled.
  destruct (loading (Part000.state p)); rewrite I.
  - split; [lia|]. intros _. repeat split.
  - split; [lia|]. intros H. lia.
Qed.

Lemma C3_witness_hello_sending :
  Part000.click_submit example_url hello_sending = (hello_sending, None).
Proof.
  refine (proj2 (proj2 (proj2 (C3_click_while_sending_is_noop
            example_url no_number
            {| Part000.state := hello_sending; Part000.in_flight := 1 |} _)
            _))).
  - eapply Part000.reachable_step;
      [eapply Part000.reachable_step;
         [eapply Part000.reachable_step;
            [apply Part000.reachable_initial
            |apply (Part000.step_select example_url no_number (str "a1"))]
         |apply (Part000.step_type example_url no_number (str "hello"));
          reflexivity]
      |].
    apply (Part000.step_click example_url no_number
             {| Part000.state := hello_ready; Part000.in_flight := 0 |}).
    reflexivity.
  - simpl. lia.
Defined.

(** C4: when the message is empty or consists of white space only, and
    when no assistant is selected, [sendMessage] leaves every cell of the
    session state as it is, the conversation included, and issues no
    request; in both revisions of the page. *)
Theorem C4_refused_submit_changes_nothing
    (API_URL : jsstring) (st : SessionState) :
  (forall c, In c (message st) -> is_white_space c = true) \/
  selectedAssistant st = [] ->
  Part000.sendMessage API_URL st = (st, None) /\
  PageJs.sendMessage st = (st, None).
Proof.
  intros H.
  assert (refused st = true) as R.
  { apply HandlerFacts.refused_cases.
    destruct H as [H|H]; [left; apply Facts.trim_white|right]; exact H. }
  split.
  - apply HandlerFacts.sendMessage_refused. exact R.
  - apply HandlerFacts.page_js_refused. exact R.
Qed.

Lemma C4_witness_blanks_and_no_assistant :
  (Part000.sendMessage example_url blanks_ready = (blanks_ready, None) /\
   PageJs.sendMessage blanks_ready = (blanks_ready, None)) /\
  (Part000.sendMessage example_url (setMessage (str "hello") initial)
   = (setMessage (str "hello") initial, None) /\
   PageJs.sendMessage (setMessage (str "hello") initial)
   = (setMessage (str "hello") initial, None)).
Proof.
  split.
  - apply (C4_refused_submit_changes_nothing example_url blanks_ready).
    left. intros c Hc. simpl in Hc.
    destruct Hc as [<-|[<-|[<-|[]]]]; reflexivity.
  - apply (C4_refused_submit_changes_nothing example_url
             (setMessage (str "hello") initial)).
    right. reflexivity.
Defined.

(** C7: for every message that is not empty after trimming, with an
    assistant selected, [sendMessage] has appended exactly one user turn
    holding the message as typed, set [loading], and issued the request for
    the selected assistant with that message, by the time it suspends on
    the exchange; in both revisions of the page. *)
Theorem C7_submit_appends_user_turn_first
    (API_URL : jsstring) (st : SessionState) :
  trim (message st) <> [] -> selectedAssistant st <> [] ->
  let user_turn := {| role := user; content := Raw (VString (message st)) |} in
  (conversations (fst (Part000.sendMessage API_URL st))
   = conversations st ++ [user_turn] /\
   loading (fst (Part000.sendMessage API_URL st)) = true /\
   exists req, snd (Part000.sendMessage API_URL st) = Some req /\
     assistant_id req = selectedAssistant st /\
     get_property (body req) (str "message") = VString (message st)) /\
  (conversations (fst (PageJs.sendMessage st))
   = conversations st ++ [user_turn] /\
   loading (fst (PageJs.sendMessage st)) = true /\
   exists req, snd (PageJs.sendMessage st) = Some req /\
     assistant_id req = selectedAssistant st /\
     get_property (body req) (str "message") = VString (message st)).
Proof.
  intros Hm Ha user_turn.
  assert (refused st = false) as R.
  { destruct (refused st) eqn:E; [|reflexivity].
    apply HandlerFacts.refused_cases in E. destruct E; contradiction. }
  split.
  - destruct (HandlerFacts.sendMessage_accepted API_URL st R)
      as (-> & req & -> & _ & Hid & Hbody).
    split; [reflexivity|]. split; [reflexivity|].
    exists req. rewrite Hid, Hbody. repeat split.
  - destruct (HandlerFacts.page_js_accepted st R)
      as (-> & req & -> & Hid & Hbody).
    split; [reflexivity|]. split; [reflexivity|].
    exists req. rewrite Hid, Hbody. repeat split.
Qed.

Lemma C7_witness_hello :
  conversations (fst (Part000.sendMessage example_url hello_ready))
  = [{| role := user; content := Raw (VString (str "hello")) |}].
Proof.
  refine (proj1 (proj1 (C7_submit_appends_user_turn_first
                          example_url hello_ready _ _))).
  - vm_compute. discriminate.
  - vm_compute. discriminate.
Defined.

(** An exchange that does not fail has a response whose body is JSON other
    than [null]. *)
Lemma answered_exchange (o : fetch_outcome) :
  exchange_fails o = false ->
  exists status text data,
    o = Responded status text /\ JSON.parse text = Some data /\
    data <> VNull.
Proof.
  unfold exchange_fails. destruct o as [|status text]; [discriminate|].
  destruct (JSON.parse text) as [data|] eqn:E; [|discriminate].
  intros N. exists status, text, data.
  split; [reflexivity|]. split; [exact E|].
  intros ->. discriminate.
Qed.

(** What [part_000] does with such a response. *)
Lemma resume_parsed (Number_toString : number -> jsstring)
    (status : N) (text : jsstring) (data : value) (st : SessionState) :
  JSON.parse text = Some data -> data <> VNull ->
  Part000.sendMessage_resume Number_toString (Responded status text) st
  = (setMessage []
       (setLoading false
          (setConversations
             (append
                (reply (fst (Part000.interpret Number_toString
                               (get_property data (str "response"))))))
             st)),
     snd (Part000.interpret Number_toString
            (get_property data (str "response")))).
Proof.
  intros Hparse Hnn.
  unfold Part000.sendMessage_resume, await_data, member. rewrite Hparse.
  destruct (nullish data) eqn:N;
    [elim Hnn; exact (Facts.parse_nullish _ _ Hparse N)|].
  destruct (Part000.interpret Number_toString
              (get_property data (str "response"))).
  reflexivity.
Qed.

(** What [page.js] does with it. *)
Lemma page_js_resume_parsed
    (status : N) (text : jsstring) (data : value) (st : SessionState) :
  JSON.parse text = Some data -> data <> VNull ->
  PageJs.sendMessage_resume (Responded status text) st
  = (Some (setMessage []
             (setLoading false
                (setConversations
                   (append (reply (Raw (get_property data (str "response")))))
                   st))),
     [console_log data]).
Proof.
  intros Hparse Hnn.
  unfold PageJs.sendMessage_resume, await_data, member. rewrite Hparse.
  destruct (nullish data) eqn:N;
    [elim Hnn; exact (Facts.parse_nullish _ _ Hparse N)|].
  reflexivity.
Qed.

(** What [page.js] does when the exchange ends in its [catch]. *)
Lemma page_js_resume_caught (o : fetch_outcome) (st : SessionState) :
  exchange_fails o = true -> null_body o = false ->
  exists e,
    PageJs.sendMessage_resume o st
    = (Some (setMessage [] (setLoading false st)),
       [console_error (str "Error sending message:") e]).
Proof.
  unfold PageJs.sendMessage_resume, exchange_fails, null_body, await_data.
  destruct o as [|status text]; [intros _ _; eexists; reflexivity|].
  destruct (JSON.parse text) as [data|];
    [|intros _ _; eexists; reflexivity].
  intros ->. discriminate.
Qed.

(** What [page.js] does with the body [null]: [data.response] is read by
    the updater, outside the [try], so nothing is caught. *)
Lemma page_js_resume_null (o : fetch_outcome) (st : SessionState) :
  null_body o = true ->
  PageJs.sendMessage_resume o st = (None, [console_log VNull]).
Proof.
  unfold PageJs.sendMessage_resume, null_body, await_data.
  destruct o as [|status text]; [discriminate|].
  destruct (JSON.parse text) as [data|] eqn:E; [|discriminate].
  intros N. rewrite (Facts.parse_nullish _ _ E N). reflexivity.
Qed.

(** C5, as stated, does not hold: an exchange that fails with status 500
    and a JSON error document as body is followed by an assistant turn; the
    conversation has two turns more than before the submit, not one. *)
Lemma C5_counterexample_status_500_adds_two_turns :
  refused hello_ready = false /\
  fails_or_bad_status server_error = true /\
  length
    (conversations
       (fst (Part000.sendMessage_resume no_number server_error
               (fst (Part000.sendMessage example_url hello_ready)))))
  = length (conversations hello_ready) + 2.
Proof. repeat split; vm_compute; reflexivity. Qed.

(** C5, amended: an exchange fails when [fetch] rejects, the body of the
    response is not JSON, or it is the JSON [null]; the status of the
    response plays no part.  Once an accepted exchange has completed, the
    user's turn, holding the message as typed, is followed by nothing when
    the exchange failed (one turn more than before the submit) and by
    exactly one assistant turn otherwise (two turns more), which holds the
    interpretation of the [response] of the body; never by more than one.
    In [page.js] the same holds, the assistant turn holding the [response]
    as it came, for every exchange but the one whose response has the body
    [null]. *)
Theorem C5_one_reply_or_none
    (API_URL : jsstring) (Number_toString : number -> jsstring)
    (st : SessionState) (o : fetch_outcome) :
  refused st = false ->
  let asked := {| role := user; content := Raw (VString (message st)) |} in
  (let sent := fst (Part000.sendMessage API_URL st) in
   let done := fst (Part000.sendMessage_resume Number_toString o sent) in
   (exchange_fails o = true ->
    conversations done = conversations st ++ [asked]) /\
   (forall status text data,
      o = Responded status text -> JSON.parse text = Some data ->
      data <> VNull ->
      conversations done
      = conversations st
        ++ [asked;
            {| role := assistant;
               content :=
                 fst (Part000.interpret Number_toString
                        (get_property data (str "response"))) |}]) /\
   length (conversations done)
   = length (conversations st) + (if exchange_fails o then 1 else 2)) /\
  (null_body o = false ->
   let sent := fst (PageJs.sendMessage st) in
   exists done,
     fst (PageJs.sendMessage_resume o sent) = Some done /\
     (exchange_fails o = true ->
      conversations done = conversations st ++ [asked]) /\
     (forall status text data,
        o = Responded status text -> JSON.parse text = Some data ->
        data <> VNull ->
        conversations done
        = conversations st
          ++ [asked;
              {| role := assistant;
                 content := Raw (get_property data (str "response")) |}]) /\
     length (conversations done)
     = length (conversations st) + (if exchange_fails o then 1 else 2)).
Proof.
  intros R asked. split.
  - intros sent done.
    destruct (HandlerFacts.sendMessage_accepted API_URL st R) as (Hsent & _).
    fold sent in Hsent.
    destruct (exchange_fails o) eqn:E.
    + destruct (HandlerFacts.resume_failed Number_toString o sent E) as [e He].
      unfold done. rewrite He, Hsent. cbn. unfold append.
      split; [reflexivity|]. split; [|rewrite length_app; reflexivity].
      intros status text data -> Hparse Hnn.
      unfold exchange_fails in E. rewrite Hparse in E.
      elim Hnn. exact (Facts.parse_nullish _ _ Hparse E).
    + destruct (answered_exchange o E) as (status & text & data & -> & Hp & Hn).
      unfold done. rewrite (resume_parsed Number_toString _ _ _ sent Hp Hn).
      rewrite Hsent. cbn. unfold append. rewrite <- app_assoc. cbn [app].
      split; [discriminate|]. split; [|rewrite length_app; reflexivity].
      intros status' text' data' H Hp' _. injection H as <- <-.
      rewrite Hp in Hp'. injection Hp' as <-. reflexivity.
  - intros Hnull sent.
    destruct (HandlerFacts.page_js_accepted st R) as (Hsent & _).
    fold sent in Hsent.
    destruct (exchange_fails o) eqn:E.
    + destruct (page_js_resume_caught o sent E Hnull) as [e He].
      rewrite He. eexists. split; [reflexivity|].
      rewrite Hsent. cbn. unfold append.
      split; [reflexivity|]. split; [|rewrite length_app; reflexivity].
      intros status text data -> Hparse Hnn.
      unfold exchange_fails in E. rewrite Hparse in E.
      elim Hnn. exact (Facts.parse_nullish _ _ Hparse E).
    + destruct (answered_exchange o E) as (status & text & data & -> & Hp & Hn).
      rewrite (page_js_resume_parsed _ _ _ sent Hp Hn).
      eexists. split; [reflexivity|].
      rewrite Hsent. cbn. unfold append. rewrite <- app_assoc. cbn [app].
      split; [discriminate|]. split; [|rewrite length_app; reflexivity].
      intros status' text' data' H Hp' _. injection H as <- <-.
      rewrite Hp in Hp'. injection Hp' as <-. reflexivity.
Qed.

Lemma C5_witness_hi_there :
  conversations
    (fst (Part000.sendMessage_resume no_number hi_there hello_sending))
  = [{| role := user; content := Raw (VString (str "hello")) |};
     {| role := assistant;
        content := PlainText (VString (str "hi there")) |}] /\
  length
    (conversations
       (fst (Part000.sendMessage_resume no_number Rejected hello_sending)))
  = 1.
Proof.
  split.
  - refine (proj1 (proj2 (proj1 (C5_one_reply_or_none
                     example_url no_number hello_ready hi_there eq_refl)))
              200%N _
              (VObject [(str "response", VString (str "hi there"))])
              eq_refl _ _).
    + vm_compute. reflexivity.
    + discriminate.
  - exact (proj2 (proj2 (proj1 (C5_one_reply_or_none
                     example_url no_number hello_ready Rejected eq_refl)))).
Defined.

(** C8: [part_000] does what the claim says: after every exchange,
    whether it ends in the reply or in the [catch], [loading] is false and
    the message buffer is empty.  [page.js] does so for every exchange but
    one: when the body of the response is the JSON [null], the read of
    [data.response] throws inside the updater, outside the [try]; the
    [catch] is not entered and the render that applies the updater throws,
    so that no idle state with an empty buffer is reached. *)
Theorem C8_page_js_null_body_leaves_no_state
    (Number_toString : number -> jsstring) (o : fetch_outcome)
    (st : SessionState) :
  (loading (fst (Part000.sendMessage_resume Number_toString o st)) = false /\
   message (fst (Part000.sendMessage_resume Number_toString o st)) = []) /\
  (null_body o = false ->
   exists done,
     fst (PageJs.sendMessage_resume o st) = Some done /\
     loading done = false /\ message done = []) /\
  (null_body o = true ->
   PageJs.sendMessage_resume o st = (None, [console_log VNull])).
Proof.
  split; [|split].
  - destruct (exchange_fails o) eqn:E.
    + destruct (HandlerFacts.resume_failed Number_toString o st E) as [e ->].
      split; reflexivity.
    + destruct (HandlerFacts.resume_answered Number_toString o st E) as [c ->].
      split; reflexivity.
  - intros Hnull. destruct (exchange_fails o) eqn:E.
    + destruct (page_js_resume_caught o st E Hnull) as [e ->].
      eexists. repeat split.
    + destruct (answered_exchange o E) as (status & text & data & -> & Hp & Hn).
      rewrite (page_js_resume_parsed _ _ _ st Hp Hn).
      eexists. repeat split.
  - apply page_js_resume_null.
Qed.

Lemma C8_witness_null_response :
  PageJs.sendMessage_resume null_response (fst (PageJs.sendMessage hello_ready))
  = (None, [console_log VNull]) /\
  exists done,
    fst (PageJs.sendMessage_resume hi_there (fst (PageJs.sendMessage hello_ready)))
    = Some done /\
    loading done = false /\ message done = [].
Proof.
  split.
  - apply (proj2 (proj2 (C8_page_js_null_body_leaves_no_state
                           no_number null_response
                           (fst (PageJs.sendMessage hello_ready))))).
    reflexivity.
  - apply (proj1 (proj2 (C8_page_js_null_body_leaves_no_state
                           no_number hi_there
                           (fst (PageJs.sendMessage hello_ready))))).
    reflexivity.
Defined.

(* ================================================================== *)
(** ** Further properties: the guard and the submit button *)
(* ================================================================== *)

Module GuardFacts.

Lemma trim_start_blank (s : jsstring) :
  trim_start s = [] -> forall c, In c s -> is_white_space c = true.
Proof.
  induction s as [|x r IH]; simpl; [intros _ c []|].
  destruct (is_white_space x) eqn:E; [|discriminate].
  intros H c [<-|Hin]; [exact E|apply IH; assumption].
Qed.

Lemma trim_start_head (s r : jsstring) (c : N) :
  trim_start s = c :: r -> is_white_space c = false.
Proof.
  induction s as [|x s IH]; simpl; [discriminate|].
  destruct (is_white_space x) eqn:E; [exact IH|].
  intros H. injection H as <- _. exact E.
Qed.

Lemma trim_blank (s : jsstring) :
  trim s = [] -> forall c, In c s -> is_white_space c = true.
Proof.
  unfold trim. intros H.
  apply (f_equal (@rev N)) in H. rewrite rev_involutive in H. simpl in H.
  pose proof (trim_start_blank _ H) as W.
  destruct (trim_start s) as [|x r] eqn:E; [apply trim_start_blank; exact E|].
  apply trim_start_head in E.
  rewrite (W x) in E; [discriminate|].
  apply -> in_rev. left. reflexivity.
Qed.

Lemma trim_nil_iff (s : jsstring) :
  trim s = [] <-> forall c, In c s -> is_white_space c = true.
Proof. split; [apply trim_blank|apply Facts.trim_white]. Qed.

End GuardFacts.

(** X1: [sendMessage] returns at its guard exactly when every code unit of
    the message is white space (the empty message included) or no assistant
    is selected. *)
Theorem X1_guard_refuses_exactly_blank_or_unselected (st : SessionState) :
  refused st = true
  <-> (forall c, In c (message st) -> is_white_space c = true)
      \/ selectedAssistant st = [].
Proof.
  rewrite HandlerFacts.refused_cases, GuardFacts.trim_nil_iff. reflexivity.
Qed.

(** X2: a click on the submit button issues a request exactly when no
    exchange is pending, an assistant is selected and the message has a
    code unit that is not white space; the request then goes to the chat
    endpoint for that assistant. *)
Theorem X2_click_sends_exactly_when_ready
    (API_URL : jsstring) (st : SessionState) :
  (snd (Part000.click_submit API_URL st) <> None
   <-> loading st = false /\ selectedAssistant st <> [] /\
       exists c, In c (message st) /\ is_white_space c = false) /\
  (forall req,
     snd (Part000.click_submit API_URL st) = Some req ->
     url req = API_URL ++ str "/chat/" /\
     method req = str "POST" /\
     assistant_id req = selectedAssistant st).
Proof.
  unfold Part000.click_submit, disabled, Part000.sendMessage.
  destruct (loading st); cbn [orb].
  { split; [|discriminate]. split; [intros H; elim H; reflexivity|].
    intros (H & _). discriminate. }
  destruct (selectedAssistant st) as [|a0 sel] eqn:Hsel; cbn [is_empty].
  { split; [|discriminate]. split; [intros H; elim H; reflexivity|].
    intros (_ & H & _). elim H. reflexivity. }
  unfold refused. rewrite Hsel. cbn [is_empty]. rewrite orb_false_r.
  destruct (trim (message st)) as [|t0 tr] eqn:Ht; cbn [is_empty snd].
  - split; [|discriminate]. split; [intros H; elim H; reflexivity|].
    intros (_ & _ & c & Hin & Hc).
    rewrite (GuardFacts.trim_blank _ Ht c Hin) in Hc. discriminate.
  - split.
    + split; [|discriminate]. intros _. split; [reflexivity|].
      split; [discriminate|].
      destruct (existsb (fun c => negb (is_white_space c)) (message st)) eqn:E.
      * apply existsb_exists in E as (c & Hin & Hc).
        exists c. split; [exact Hin|]. apply negb_true_iff. exact Hc.
      * rewrite Facts.trim_white in Ht; [discriminate|].
        intros c Hin.
        destruct (is_white_space c) eqn:Hc; [reflexivity|].
        assert (existsb (fun c => negb (is_white_space c)) (message st) = true)
          as K; [|rewrite K in E; discriminate].
        apply existsb_exists. exists c. rewrite Hc. split; [exact Hin|reflexivity].
    + intros req H. injection H as <-. repeat split.
Qed.

(* ================================================================== *)
(** ** Further properties: the conversation on the page *)
(* ================================================================== *)

Module DialogueFacts.

Lemma answers_follow_app (l : list Turn) (t : Turn) (asked : bool) :
  answers_follow asked (l ++ [t])
  = answers_follow asked l && (is_user t || ends_asked asked l).
Proof.
  revert asked. induction l as [|x l IH]; intros asked; simpl.
  - destruct (is_user t), asked; reflexivity.
  - destruct (is_user x); rewrite IH; [reflexivity|].
    rewrite andb_assoc. reflexivity.
Qed.

Lemma ends_asked_app (l : list Turn) (t : Turn) (asked : bool) :
  ends_asked asked (l ++ [t]) = is_user t.
Proof.
  revert asked. induction l as [|x l IH]; intros asked; simpl;
    [reflexivity|apply IH].
Qed.

Section Part000.

Variable API_URL : jsstring.
Variable Number_toString : number -> jsstring.

Lemma interpret_fits (c : value) :
  turn_fits (reply (fst (Part000.interpret Number_toString c))) = true.
Proof.
  destruct (Facts.interpret_shape Number_toString c)
    as [->|(fa & ra & da & ps & ->)]; reflexivity.
Qed.

Lemma reachable_sound (p : Part000.page) :
  Part000.reachable API_URL Number_toString p -> sound p.
Proof.
  induction 1 as [|p q Hp IH Hstep].
  { repeat split. discriminate. }
  pose proof (HandlerFacts.in_flight_loading API_URL Number_toString p Hp) as I.
  destruct IH as (A & F & L).
  destruct Hstep as [text p Hd|id p|p Hd|o p|o p Hpos];
    unfold sound; cbn [Part000.state].
  - unfold disabled in Hd. apply orb_false_elim in Hd as [Hl _].
    cbn. repeat split; try assumption. rewrite Hl. discriminate.
  - cbn. repeat split; assumption.
  - unfold disabled in Hd. apply orb_false_elim in Hd as [Hl Hs].
    unfold Part000.sendMessage.
    destruct (refused (Part000.state p)) eqn:R; cbn [fst].
    + repeat split; assumption.
    + cbn. unfold append.
      rewrite answers_follow_app, A, forallb_app, F. cbn.
      split; [reflexivity|]. split.
      * unfold refused in R. apply orb_false_elim in R as [R _].
        rewrite R. reflexivity.
      * intros _. eexists. reflexivity.
  - unfold Part000.fetchAssistants_resume.
    destruct (await_data o) as [data|e]; [|repeat split; assumption].
    destruct (member data (str "assistants")); cbn;
      repeat split; assumption.
  - destruct (loading (Part000.state p)) eqn:Hl; [|lia].
    destruct (L eq_refl) as [before Hb].
    destruct (exchange_fails o) eqn:E.
    + destruct (HandlerFacts.resume_failed Number_toString o
                  (Part000.state p) E) as [e ->].
      cbn. repeat split; try assumption. discriminate.
    + destruct (HandlerFacts.resume_answered Number_toString o
                  (Part000.state p) E) as [c ->].
      cbn. unfold append.
      rewrite answers_follow_app, A, forallb_app, F. cbn [andb forallb].
      rewrite interpret_fits, Hb, ends_asked_app. cbn.
      repeat split. discriminate.
Qed.

End Part000.

End DialogueFacts.

(** The page of the scenario is reached by picking the assistant, typing
    and clicking. *)
Ltac reach_hello_page :=
  eapply Part000.reachable_step;
    [eapply Part000.reachable_step;
       [eapply Part000.reachable_step;
          [apply Part000.reachable_initial
          |apply (Part000.step_select example_url no_number (str "a1"))]
       |apply (Part000.step_type example_url no_number (str "hello"));
        reflexivity]
    |apply (Part000.step_click example_url no_number
              {| Part000.state := hello_ready; Part000.in_flight := 0 |});
     reflexivity].

Lemma ends_asked_last (l : list Turn) :
  ends_asked false l = true ->
  exists before u, l = before ++ [u] /\ role u = user.
Proof.
  induction l as [|x l IH] using rev_ind; [discriminate|].
  rewrite DialogueFacts.ends_asked_app. intros H.
  exists l, x. split; [reflexivity|].
  unfold is_user in H. destruct (role x); [reflexivity|discriminate].
Qed.

Lemma answers_follow_split
    (before after : list Turn) (t : Turn) (asked : bool) :
  answers_follow asked (before ++ t :: after) = true ->
  role t = assistant -> ends_asked asked before = true.
Proof.
  revert asked. induction before as [|x l IH]; intros asked; simpl.
  - unfold is_user. intros H R. rewrite R in H.
    apply andb_prop in H as [H _]. exact H.
  - destruct (is_user x); intros H R.
    + exact (IH _ H R).
    + apply andb_prop in H as [_ H]. exact (IH _ H R).
Qed.

(** X3: no event of the page removes or alters a turn: each leaves the
    turns that are there in place and adds at most one at the end. *)
Theorem X3_each_event_appends_at_most_one_turn
    (API_URL : jsstring) (Number_toString : number -> jsstring)
    (p q : Part000.page) :
  Part000.step API_URL Number_toString p q ->
  exists added,
    conversations (Part000.state q)
    = conversations (Part000.state p) ++ added /\
    length added <= 1.
Proof.
  intros [text p0 Hd|id p0|p0 Hd|o p0|o p0 Hpos]; cbn [Part000.state].
  - exists []. rewrite app_nil_r. split; [reflexivity|simpl; lia].
  - exists []. rewrite app_nil_r. split; [reflexivity|simpl; lia].
  - unfold Part000.sendMessage.
    destruct (refused (Part000.state p0)); cbn [fst].
    + exists []. rewrite app_nil_r. split; [reflexivity|simpl; lia].
    + eexists. split; [reflexivity|simpl; lia].
  - exists []. rewrite app_nil_r. split; [|simpl; lia].
    unfold Part000.fetchAssistants_resume.
    destruct (await_data o) as [data|e]; [|reflexivity].
    destruct (member data (str "assistants")); reflexivity.
  - destruct (exchange_fails o) eqn:E.
    + destruct (HandlerFacts.resume_failed Number_toString o
                  (Part000.state p0) E) as [e ->].
      exists []. rewrite app_nil_r. split; [reflexivity|simpl; lia].
    + destruct (HandlerFacts.resume_answered Number_toString o
                  (Part000.state p0) E) as [c ->].
      eexists. split; [reflexivity|simpl; lia].
Qed.

Lemma X3_witness_click :
  exists added,
    conversations hello_sending = conversations hello_ready ++ added /\
    length added <= 1.
Proof.
  apply (X3_each_event_appends_at_most_one_turn example_url no_number
           {| Part000.state := hello_ready; Part000.in_flight := 0 |}
           hello_page).
  apply (Part000.step_click example_url no_number
           {| Part000.state := hello_ready; Part000.in_flight := 0 |}).
  reflexivity.
Defined.

(** X4: on every page reached through the controls, each assistant turn
    comes right after a user turn; in particular the conversation never
    begins with an assistant turn and never has two of them in a row. *)
Theorem X4_every_answer_follows_a_question
    (API_URL : jsstring) (Number_toString : number -> jsstring)
    (p : Part000.page) (before after : list Turn) (t : Turn) :
  Part000.reachable API_URL Number_toString p ->
  conversations (Part000.state p) = before ++ t :: after ->
  role t = assistant ->
  exists earlier u, before = earlier ++ [u] /\ role u = user.
Proof.
  intros R E Ht.
  destruct (DialogueFacts.reachable_sound API_URL Number_toString p R)
    as (A & _).
  rewrite E in A. apply ends_asked_last.
  exact (answers_follow_split before after t false A Ht).
Qed.

(** X5: on every page reached through the controls, a user turn holds a
    text, as typed, that is not blank, and an assistant turn holds a
    paragraph or a card; while an exchange is pending the last turn is the
    user's and its text is the one still in the message buffer. *)
Theorem X5_turns_hold_what_was_sent
    (API_URL : jsstring) (Number_toString : number -> jsstring)
    (p : Part000.page) :
  Part000.reachable API_URL Number_toString p ->
  (forall t, In t (conversations (Part000.state p)) -> turn_fits t = true) /\
  (loading (Part000.state p) = true ->
   exists before,
     conversations (Part000.state p)
     = before ++ [{| role := user;
                     content := Raw (VString (message (Part000.state p))) |}]).
Proof.
  intros R.
  destruct (DialogueFacts.reachable_sound API_URL Number_toString p R)
    as (_ & F & L).
  split; [|exact L].
  intros t Hin. rewrite forallb_forall in F. exact (F t Hin).
Qed.

Lemma X5_witness_hello_page :
  exists before,
    conversations hello_sending
    = before ++ [{| role := user; content := Raw (VString (str "hello")) |}].
Proof.
  refine (proj2 (X5_turns_hold_what_was_sent example_url no_number
                   hello_page _) _).
  - reach_hello_page.
  - reflexivity.
Defined.

Lemma X4_witness_hello_answered :
  exists earlier u,
    [{| role := user; content := Raw (VString (str "hello")) |}]
    = earlier ++ [u] /\ role u = user.
Proof.
  refine (X4_every_answer_follows_a_question example_url no_number
            {| Part000.state :=
                 fst (Part000.sendMessage_resume no_number hi_there
                        hello_sending);
               Part000.in_flight := 0 |}
            [{| role := user; content := Raw (VString (str "hello")) |}] []
            (reply (PlainText (VString (str "hi there")))) _ _ _).
  - eapply Part000.reachable_step; [reach_hello_page|].
    apply (Part000.step_settle example_url no_number hi_there hello_page).
    simpl. lia.
  - vm_compute. reflexivity.
  - reflexivity.
Defined.

(* ================================================================== *)
(** ** Further properties: the assistant list *)
(* ================================================================== *)

Lemma fetch_assistants_failed (o : fetch_outcome) (st : SessionState) :
  exchange_fails o = true ->
  exists e,
    Part000.fetchAssistants_resume o st
    = (st, [console_error (str "Error fetching assistants:") e]).
Proof.
  unfold Part000.fetchAssistants_resume, exchange_fails, await_data.
  destruct o as [|status text]; [intros _; eexists; reflexivity|].
  destruct (JSON.parse text) as [data|]; [|intros _; eexists; reflexivity].
  unfold member. intros ->. eexists. reflexivity.
Qed.

Lemma fetch_assistants_answered
    (status : N) (text : jsstring) (data : value) (st : SessionState) :
  JSON.parse text = Some data -> data <> VNull ->
  Part000.fetchAssistants_resume (Responded status text) st
  = (setAssistants (get_property data (str "assistants")) st, []).
Proof.
  intros Hparse Hnn.
  unfold Part000.fetchAssistants_resume, await_data, member.
  rewrite Hparse.
  destruct (nullish data) eqn:N; [|reflexivity].
  elim Hnn. exact (Facts.parse_nullish _ _ Hparse N).
Qed.

(** X6: [fetchAssistants] never looks at the status of the response.  When
    it gets no response, a body that is not JSON, or the JSON [null], it
    leaves the state as it is and writes one [console.error]; in every
    other case it replaces the list by the [assistants] property of the
    body, whatever that is, touches no other cell and writes nothing.  The
    two revisions of the page agree. *)
Theorem X6_fetchAssistants_replaces_or_keeps
    (o : fetch_outcome) (st : SessionState) :
  (exchange_fails o = true ->
   exists e,
     Part000.fetchAssistants_resume o st
     = (st, [console_error (str "Error fetching assistants:") e])) /\
  (forall status text data,
     o = Responded status text -> JSON.parse text = Some data ->
     data <> VNull ->
     Part000.fetchAssistants_resume o st
     = (setAssistants (get_property data (str "assistants")) st, [])) /\
  PageJs.fetchAssistants_resume o st = Part000.fetchAssistants_resume o st.
Proof.
  split; [|split; [|reflexivity]].
  - apply fetch_assistants_failed.
  - intros status text data ->. apply fetch_assistants_answered.
Qed.

Lemma X6_witness_network_error_and_list :
  (exists e,
     Part000.fetchAssistants_resume Rejected initial
     = (initial, [console_error (str "Error fetching assistants:") e])) /\
  Part000.fetchAssistants_resume assistants_response initial
  = (setAssistants (VArray [legal_assistant]) initial, []).
Proof.
  split.
  - apply (proj1 (X6_fetchAssistants_replaces_or_keeps Rejected initial)).
    reflexivity.
  - refine (proj1 (proj2 (X6_fetchAssistants_replaces_or_keeps
                            assistants_response initial))
              200%N _ (VObject [(str "assistants", VArray [legal_assistant])])
              eq_refl _ _).
    + vm_compute. reflexivity.
    + discriminate.
Defined.

Lemma select_item_list_map (l : list value) :
  (forall a, In a l -> nullish a = false) ->
  select_item_list l = Some (List.map item_of l).
Proof.
  induction l as [|a l IH]; intros H; [reflexivity|].
  cbn [select_item_list List.map]. unfold select_item, member.
  rewrite (H a (or_introl eq_refl)), IH; [reflexivity|].
  intros x Hx. apply H. right. exact Hx.
Qed.

(** X7: what the select list shows after the assistants have been fetched.
    A body whose [assistants] is an array without [null] gives one item per
    element, in order, with [id] as key and value and [name] as label; a
    body that is JSON but whose [assistants] is not an array, such as an
    error document or [{}], leaves the page with a list whose rendering
    throws; a failed fetch leaves the select list as it was. *)
Theorem X7_select_list_after_fetch
    (status : N) (text : jsstring) (data : value) (st : SessionState) :
  JSON.parse text = Some data -> data <> VNull ->
  let st' := fst (Part000.fetchAssistants_resume (Responded status text) st) in
  (forall l,
     get_property data (str "assistants") = VArray l ->
     (forall a, In a l -> nullish a = false) ->
     select_items (assistants st') = Some (List.map item_of l)) /\
  (is_array (get_property data (str "assistants")) = false ->
   select_items (assistants st') = None).
Proof.
  intros Hparse Hnn st'.
  assert (assistants st' = get_property data (str "assistants")) as ->.
  { unfold st'.
    rewrite (fetch_assistants_answered status text data st Hparse Hnn).
    reflexivity. }
  split.
  - intros l -> Hl. apply select_item_list_map. exact Hl.
  - destruct (get_property data (str "assistants")); try reflexivity.
    discriminate.
Qed.

Lemma X7_witness_list_and_error_document :
  select_items
    (assistants (fst (Part000.fetchAssistants_resume assistants_response
                        initial)))
  = Some [{| item_key := VString (str "a1");
             item_value := VString (str "a1");
             item_label := VString (str "Legal") |}] /\
  select_items
    (assistants (fst (Part000.fetchAssistants_resume server_error initial)))
  = None.
Proof.
  split.
  - refine (proj1 (X7_select_list_after_fetch 200%N _
                     (VObject [(str "assistants", VArray [legal_assistant])])
                     initial _ _) [legal_assistant] eq_refl _).
    + vm_compute. reflexivity.
    + discriminate.
    + intros a [<-|[]]. reflexivity.
  - refine (proj2 (X7_select_list_after_fetch 500%N _
                     (VObject [(str "detail",
                                VString (str "Internal Server Error"))])
                     initial _ _) _).
    + vm_compute. reflexivity.
    + discriminate.
    + reflexivity.
Defined.

(* ================================================================== *)
(** ** Further properties: the interpreter and the reply *)
(* ================================================================== *)

Lemma or_else_truthy (a b : value) :
  truthy b = true -> truthy (or_else a b) = true.
Proof. unfold or_else. destruct (truthy a) eqn:E; auto. Qed.

(** What the interpreter writes to the console: nothing, or the value the
    reply was parsed to. *)
Lemma interpret_log (Number_toString : number -> jsstring) (c : value) :
  snd (Part000.interpret Number_toString c) = [] \/
  exists parsed,
    snd (Part000.interpret Number_toString c) = [console_log parsed].
Proof.
  unfold Part000.interpret.
  destruct (JSON_parse Number_toString c) as [parsed|];
    [|left; reflexivity].
  right. exists parsed. unfold Part000.detail_slot.
  destruct (member parsed (str "analysis")); reflexivity.
Qed.

(** X8: whatever the reply, each of the four slots of a card holds a
    truthy value, the field or its placeholder: never [undefined], [null],
    [false], a number that is zero or the empty string.  (A truthy value
    that is rendered as nothing, such as [true] or an empty array, can still
    be in a slot.) *)
Theorem X8_card_slots_are_truthy
    (Number_toString : number -> jsstring) (reply_value fa ra da ps : value) :
  fst (Part000.interpret Number_toString reply_value)
  = StructuredAnalysis fa ra da ps ->
  forall v, In v [fa; ra; da; ps] ->
    truthy v = true /\
    v <> VUndefined /\ v <> VNull /\ v <> VBool false /\ v <> VString [] /\
    forall n, v = VNumber n -> number_is_zero n = false.
Proof.
  unfold Part000.interpret.
  destruct (JSON_parse Number_toString reply_value) as [parsed|];
    [|discriminate].
  unfold Part000.detail_slot, Part000.final_answer_slot.
  destruct (member parsed (str "analysis")) as [a|]; [|discriminate].
  cbn [fst]. intros H. injection H as <- <- <- <-.
  intros v Hv.
  assert (truthy v = true) as T.
  { destruct Hv as [<-|[<-|[<-|[<-|[]]]]];
      apply or_else_truthy; reflexivity. }
  split; [exact T|].
  repeat split; try (intros ->; discriminate).
  intros n ->. cbn in T. apply negb_true_iff. exact T.
Qed.

Lemma X8_witness_empty_final_answer :
  truthy not_provided = true /\
  not_provided <> VUndefined /\ not_provided <> VNull /\
  not_provided <> VBool false /\ not_provided <> VString [] /\
  forall n, not_provided = VNumber n -> number_is_zero n = false.
Proof.
  apply (X8_card_slots_are_truthy no_number (VString empty_final_answer)
           not_provided (VString (str "Low")) (VString (str "Signed"))
           (VString (str "Tender"))).
  - vm_compute. reflexivity.
  - left. reflexivity.
Defined.

(** X9: for a document with the analysis and its inner analysis, each slot
    of the card holds the value of its field when that value is truthy (a
    non-empty string, a number other than zero, [true], an array, an
    object) and the placeholder otherwise (the field is missing, or is
    [null], [false], zero or the empty string). *)
Theorem X9_slot_is_field_or_placeholder
    (Number_toString : number -> jsstring) (s : jsstring)
    (parsed fa ra da ps : value) :
  JSON.parse s = Some parsed ->
  has_fields parsed fa ra da ps ->
  fst (Part000.interpret Number_toString (VString s))
  = StructuredAnalysis
      (if truthy fa then fa else not_provided)
      (if truthy ra then ra else n_a)
      (if truthy da then da else n_a)
      (if truthy ps then ps else n_a).
Proof.
  intros Hparse Hfields.
  destruct (slots_of_fields _ _ _ _ _ Hfields) as (Hnull & E1 & E2 & E3 & E4).
  rewrite Facts.interpret_text, Hparse, Hnull, E1, E2, E3, E4. reflexivity.
Qed.

Lemma X9_witness_numbers_and_missing :
  fst (Part000.interpret no_number
         (VString (json_text
            "{'analysis':{'final_answer':0.0,'analysis':{'risk_assessment':7}}}")))
  = StructuredAnalysis not_provided (VNumber (Dec false 7 0)) n_a n_a.
Proof.
  refine (X9_slot_is_field_or_placeholder no_number _ _
            (VNumber (Dec false 0 (-1))) (VNumber (Dec false 7 0))
            VUndefined VUndefined _ _).
  - vm_compute. reflexivity.
  - do 2 eexists. repeat split; reflexivity.
Defined.

(** A text that does not begin like a JSON value is not JSON. *)
Lemma parse_prose (s : jsstring) :
  looks_like_json s = false -> JSON.parse s = None.
Proof.
  unfold looks_like_json, JSON.parse, JSON.fuel_for. cbn [JSON.parse_value].
  destruct (JSON.skip_ws s) as [|c r]; [reflexivity|].
  unfold begins_value. intros H.
  repeat (apply orb_false_elim in H as [H ?]).
  repeat match goal with E : _ = false |- _ => rewrite E; clear E end.
  assert (JSON.parse_number (c :: r) = JSON.SyntaxError) as ->; [|reflexivity].
  unfold JSON.parse_number.
  match goal with E : chr_is "-" c = false |- _ => rewrite E end.
  unfold JSON.parse_int.
  match goal with E : JSON.is_digit c = false |- _ => rewrite E end.
  destruct (chr_is "0" c) eqn:Z; [|reflexivity].
  unfold chr_is in Z. apply N.eqb_eq in Z. subst c. discriminate.
Qed.

(** X10: a reply that, after leading white space, does not begin with a
    brace, a bracket, a double quote, [t], [f], [n], a minus sign or a
    digit, the blank reply included, is shown as a paragraph holding the
    reply as it came, and nothing is written to the console. *)
Theorem X10_prose_is_shown_as_it_came
    (Number_toString : number -> jsstring) (s : jsstring) :
  looks_like_json s = false ->
  Part000.interpret Number_toString (VString s) = (PlainText (VString s), []).
Proof.
  intros H. unfold Part000.interpret, JSON_parse. cbn [ToString].
  rewrite (parse_prose s H). reflexivity.
Qed.

Lemma X10_witness_hi_there :
  Part000.interpret no_number (VString (str "hi there"))
  = (PlainText (VString (str "hi there")), []).
Proof.
  apply (X10_prose_is_shown_as_it_came no_number (str "hi there")).
  reflexivity.
Defined.

Lemma parse_undefined : JSON.parse (str "undefined") = None.
Proof. vm_compute. reflexivity. Qed.

Lemma parse_null : JSON.parse (str "null") = Some VNull.
Proof. vm_compute. reflexivity. Qed.

Lemma parse_object_tag : JSON.parse (str "[object Object]") = None.
Proof. vm_compute. reflexivity. Qed.

Lemma parse_boolean (b : bool) :
  JSON.parse (if b then str "true" else str "false") = Some (VBool b).
Proof. destruct b; vm_compute; reflexivity. Qed.

(** X11: a response whose body is JSON other than [null] and has no
    [response] property, whatever its status, makes [sendMessage] append an
    assistant turn that is a paragraph around [undefined], that is, an
    empty bubble; nothing is written to the console, and the page goes
    back to idle with an empty buffer. *)
Theorem X11_missing_response_gives_empty_bubble
    (Number_toString : number -> jsstring) (status : N) (text : jsstring)
    (data : value) (st : SessionState) :
  JSON.parse text = Some data -> data <> VNull ->
  has_key data (str "response") = false ->
  Part000.sendMessage_resume Number_toString (Responded status text) st
  = (setMessage []
       (setLoading false
          (setConversations (append (reply (PlainText VUndefined))) st)),
     []).
Proof.
  intros Hparse Hnn Hkey.
  unfold Part000.sendMessage_resume, await_data, member. rewrite Hparse.
  destruct (nullish data) eqn:N;
    [elim Hnn; exact (Facts.parse_nullish _ _ Hparse N)|].
  rewrite (Facts.get_property_absent _ _ Hkey).
  unfold Part000.interpret, JSON_parse. cbn [ToString]. rewrite parse_undefined.
  reflexivity.
Qed.

Lemma X11_witness_server_error :
  Part000.sendMessage_resume no_number server_error hello_sending
  = (setMessage []
       (setLoading false
          (setConversations (append (reply (PlainText VUndefined)))
             hello_sending)),
     []).
Proof.
  refine (X11_missing_response_gives_empty_bubble no_number 500%N _
            (VObject [(str "detail", VString (str "Internal Server Error"))])
            hello_sending _ _ _).
  - vm_compute. reflexivity.
  - discriminate.
  - reflexivity.
Defined.

(** X12: replies that are not strings.  A [response] that is [null] or an
    object is wrapped in a paragraph as it is ([null] is logged on the way,
    since [JSON.parse(null)] succeeds); a [response] that is [true] or
    [false] becomes the card of placeholders. *)
Theorem X12_replies_that_are_not_strings
    (Number_toString : number -> jsstring) :
  Part000.interpret Number_toString VNull
  = (PlainText VNull, [console_log VNull]) /\
  (forall o,
     Part000.interpret Number_toString (VObject o)
     = (PlainText (VObject o), [])) /\
  (forall b,
     Part000.interpret Number_toString (VBool b)
     = (placeholders, [console_log (VBool b)])).
Proof.
  unfold Part000.interpret, JSON_parse. cbn [ToString]. split; [|split].
  - rewrite parse_null. reflexivity.
  - intros o.
    destruct (existsb (fun kv => jsstring_eqb (str "toString") (fst kv)) o);
      [reflexivity|].
    rewrite parse_object_tag. reflexivity.
  - intros b. destruct b; cbv iota.
    + rewrite (parse_boolean true). reflexivity.
    + rewrite (parse_boolean false). reflexivity.
Qed.

(** X13: [sendMessage] writes to [console.error] exactly when the exchange
    fails; an exchange that appends a reply never does. *)
Theorem X13_console_error_exactly_on_failure
    (Number_toString : number -> jsstring) (o : fetch_outcome)
    (st : SessionState) :
  (exists label e,
     In (console_error label e)
        (snd (Part000.sendMessage_resume Number_toString o st)))
  <-> exchange_fails o = true.
Proof.
  destruct (exchange_fails o) eqn:E.
  - destruct (HandlerFacts.resume_failed Number_toString o st E) as [e ->].
    split; [reflexivity|]. intros _. do 2 eexists. left. reflexivity.
  - destruct (HandlerFacts.resume_answered Number_toString o st E) as [c ->].
    split; [|discriminate]. intros (label & e & Hin). cbn [snd] in Hin.
    destruct (interpret_log Number_toString c) as [H|[parsed H]];
      rewrite H in Hin.
    + destruct Hin.
    + destruct Hin as [Hin|[]]. discriminate.
Qed.

(** What the interpreter writes to the console, exactly: the value the
    reply was parsed to, when it parses. *)
Lemma interpret_log_exact (Number_toString : number -> jsstring) (c : value) :
  snd (Part000.interpret Number_toString c)
  = match JSON_parse Number_toString c with
    | Some parsed => [console_log parsed]
    | None => []
    end.
Proof.
  unfold Part000.interpret.
  destruct (JSON_parse Number_toString c) as [parsed|]; [|reflexivity].
  unfold Part000.detail_slot.
  destruct (member parsed (str "analysis")); reflexivity.
Qed.

(** X14: how the two revisions of the page differ.  On an exchange that
    ends in the [catch] of [page.js], both end in the same state and write
    the same [console.error].  On a response whose body is JSON other than
    [null], both append one assistant turn and end in states that are equal
    but for the content of that turn, which is the [response] as it came in
    [page.js] and its interpretation in [part_000]; and they log different
    things: [page.js] the body, [part_000] the value the [response] was
    parsed to, or nothing when it does not parse. *)
Theorem X14_revisions_differ_in_reply_and_log
    (Number_toString : number -> jsstring) (o : fetch_outcome)
    (st : SessionState) :
  (exchange_fails o = true ->
   forall done,
     fst (PageJs.sendMessage_resume o st) = Some done ->
     Part000.sendMessage_resume Number_toString o st
     = (done, snd (PageJs.sendMessage_resume o st))) /\
  (forall status text data,
     o = Responded status text -> JSON.parse text = Some data ->
     data <> VNull ->
     let response := get_property data (str "response") in
     PageJs.sendMessage_resume o st
     = (Some (setMessage []
                (setLoading false
                   (setConversations (append (reply (Raw response))) st))),
        [console_log data]) /\
     Part000.sendMessage_resume Number_toString o st
     = (setMessage []
          (setLoading false
             (setConversations
                (append
                   (reply (fst (Part000.interpret Number_toString response))))
                st)),
        match JSON_parse Number_toString response with
        | Some parsed => [console_log parsed]
        | None => []
        end)).
Proof.
  split.
  - unfold PageJs.sendMessage_resume, Part000.sendMessage_resume,
      exchange_fails, await_data.
    destruct o as [|status text].
    { intros _ done H. injection H as <-. reflexivity. }
    destruct (JSON.parse text) as [data|].
    2:{ intros _ done H. injection H as <-. reflexivity. }
    unfold member. intros ->. intros done H. discriminate.
  - intros status text data -> Hp Hn response. split.
    + apply page_js_resume_parsed; assumption.
    + rewrite (resume_parsed Number_toString _ _ _ st Hp Hn).
      fold response. rewrite interpret_log_exact. reflexivity.
Qed.

Lemma X14_witness_hi_there :
  PageJs.sendMessage_resume hi_there hello_sending
  = (Some (setMessage []
             (setLoading false
                (setConversations
                   (append (reply (Raw (VString (str "hi there")))))
                   hello_sending))),
     [console_log (VObject [(str "response", VString (str "hi there"))])]) /\
  Part000.sendMessage_resume no_number hi_there hello_sending
  = (setMessage []
       (setLoading false
          (setConversations
             (append (reply (PlainText (VString (str "hi there")))))
             hello_sending)),
     []).
Proof.
  refine (proj2 (X14_revisions_differ_in_reply_and_log
                   no_number hi_there hello_sending)
            200%N _ (VObject [(str "response", VString (str "hi there"))])
            eq_refl _ _).
  - vm_compute. reflexivity.
  - discriminate.
Defined.

(* ================================================================== *)
(** ** Further properties: the body of the request *)
(* ================================================================== *)

Module PayloadFacts.
Import JSON.

Local Open Scope N_scope.

Lemma hex_of_hex_digit (d : N) : d < 16 -> hex (hex_digit d) = Some d.
Proof.
  intros H.
  assert (d = 0 \/ d = 1 \/ d = 2 \/ d = 3 \/ d = 4 \/ d = 5 \/ d = 6 \/ d = 7
          \/ d = 8 \/ d = 9 \/ d = 10 \/ d = 11 \/ d = 12 \/ d = 13 \/ d = 14
          \/ d = 15) as K by lia.
  repeat (destruct K as [->|K]; [reflexivity|]). subst d. reflexivity.
Qed.

Lemma hex4_of_unicode_escape (c : N) :
  code_unit c ->
  hex4 (hex_digit (c / 4096)) (hex_digit ((c / 256) mod 16))
       (hex_digit ((c / 16) mod 16)) (hex_digit (c mod 16))
  = Some c.
Proof.
  unfold code_unit. intros H. unfold hex4.
  rewrite !hex_of_hex_digit.
  - f_equal.
    assert (c / 256 = c / 16 / 16) as ->
      by (rewrite N.Div0.div_div; reflexivity).
    assert (c / 4096 = c / 16 / 16 / 16) as ->
      by (rewrite !N.Div0.div_div; reflexivity).
    pose proof (N.div_mod c 16 ltac:(discriminate)) as E0.
    pose proof (N.div_mod (c / 16) 16 ltac:(discriminate)) as E1.
    pose proof (N.div_mod (c / 16 / 16) 16 ltac:(discriminate)) as E2.
    lia.
  - apply N.mod_lt. discriminate.
  - apply N.mod_lt. discriminate.
  - apply N.mod_lt. discriminate.
  - apply N.Div0.div_lt_upper_bound. exact H.
Qed.

Lemma short_escape_reads_back (c e : N) :
  short_escape c = Some e -> chr_is "u" e = false /\ escape e = Some c.
Proof.
  unfold short_escape.
  repeat match goal with
         | |- context [N.eqb c ?k] =>
             destruct (N.eqb_spec c k) as [->|?];
             [intros H; injection H as <-; split; reflexivity|]
         end.
  discriminate.
Qed.

Lemma short_escape_none (c : N) :
  short_escape c = None -> N.eqb c dquote = false /\ chr_is "\" c = false.
Proof.
  unfold short_escape.
  repeat match goal with
         | |- context [if N.eqb c ?k then _ else _] =>
             destruct (N.eqb_spec c k) as [->|?]; [discriminate|]
         end.
  intros _. split; [change (N.eqb c 34 = false)|change (N.eqb c 92 = false)];
    apply N.eqb_neq; assumption.
Qed.

Lemma parse_chars_escaped (acc rest : jsstring) (e u : N) :
  chr_is "u" e = false -> escape e = Some u ->
  parse_chars acc (92 :: e :: rest) = parse_chars (u :: acc) rest.
Proof.
  intros Hu He. cbn [parse_chars].
  change (N.eqb 92 dquote) with false. change (chr_is "\" 92) with true.
  cbv iota. rewrite Hu, He. reflexivity.
Qed.

Lemma parse_chars_unicode (acc rest : jsstring) (c : N) :
  code_unit c ->
  parse_chars acc (unicode_escape c ++ rest) = parse_chars (c :: acc) rest.
Proof.
  intros H. unfold unicode_escape. cbn [app parse_chars].
  change (N.eqb 92 dquote) with false. change (chr_is "\" 92) with true.
  change (chr_is "u" 117) with true. cbv iota.
  rewrite (hex4_of_unicode_escape c H). reflexivity.
Qed.

Lemma parse_chars_plain (acc rest : jsstring) (c : N) :
  short_escape c = None -> N.ltb c 32 = false ->
  parse_chars acc (c :: rest) = parse_chars (c :: acc) rest.
Proof.
  intros Hs Hc. destruct (short_escape_none c Hs) as [Hq Hb].
  cbn [parse_chars]. rewrite Hq, Hb, Hc. reflexivity.
Qed.

Lemma surrogate_plain (c : N) :
  is_leading_surrogate c = true \/ is_trailing_surrogate c = true ->
  short_escape c = None /\ N.ltb c 32 = false.
Proof.
  unfold is_leading_surrogate, is_trailing_surrogate, short_escape.
  intros H.
  assert (55296 <= c) as L.
  { destruct H as [H|H]; apply andb_prop in H as [H _];
      apply N.leb_le in H; lia. }
  repeat match goal with
         | |- context [if N.eqb c ?k then _ else _] =>
             destruct (N.eqb_spec c k) as [->|?]; [lia|]
         end.
  split; [reflexivity|]. apply N.ltb_ge. lia.
Qed.

(** Reading a quoted string back gives the string. *)
Lemma parse_chars_quoted (n : nat) (s : jsstring) :
  (length s <= n)%nat -> Forall code_unit s ->
  forall acc rest,
    parse_chars acc (quote_chars s ++ dquote :: rest) = Ok (rev acc ++ s) rest.
Proof.
  revert s. induction n as [|n IH]; intros s Hn Hs acc rest.
  { destruct s; [|simpl in Hn; lia].
    cbn [quote_chars app parse_chars]. rewrite N.eqb_refl, app_nil_r.
    reflexivity. }
  destruct s as [|c r].
  { cbn [quote_chars app parse_chars]. rewrite N.eqb_refl, app_nil_r.
    reflexivity. }
  apply Forall_cons_iff in Hs as [Hc Hr]. simpl in Hn.
  assert (forall acc0, rev (c :: acc0) ++ r = rev acc0 ++ c :: r) as Snoc.
  { intros acc0. simpl. rewrite <- app_assoc. reflexivity. }
  cbn [quote_chars].
  destruct (short_escape c) as [e|] eqn:Hs.
  { destruct (short_escape_reads_back c e Hs) as [Hu He].
    cbn [app]. rewrite (parse_chars_escaped _ _ _ _ Hu He).
    rewrite IH; [apply f_equal2; [apply Snoc|reflexivity]|lia|exact Hr]. }
  destruct (N.ltb c 32) eqn:Hlow.
  { rewrite <- app_assoc, (parse_chars_unicode _ _ _ Hc).
    rewrite IH; [apply f_equal2; [apply Snoc|reflexivity]|lia|exact Hr]. }
  destruct (is_leading_surrogate c) eqn:Hlead.
  { destruct r as [|d r'].
    - rewrite (parse_chars_unicode _ _ _ Hc).
      cbn [parse_chars]. rewrite N.eqb_refl. reflexivity.
    - destruct (is_trailing_surrogate d) eqn:Htrail.
      + apply Forall_cons_iff in Hr as [Hd Hr']. simpl in Hn.
        destruct (surrogate_plain d (or_intror Htrail)) as [Hsd Hld].
        cbn [app].
        rewrite (parse_chars_plain _ _ _ Hs Hlow),
          (parse_chars_plain _ _ _ Hsd Hld).
        rewrite IH; [|lia|exact Hr'].
        apply f_equal2; [|reflexivity].
        simpl. rewrite <- !app_assoc. reflexivity.
      + rewrite <- app_assoc, (parse_chars_unicode _ _ _ Hc).
        rewrite IH; [apply f_equal2; [apply Snoc|reflexivity]
                   |simpl in *; lia|exact Hr]. }
  destruct (is_trailing_surrogate c) eqn:Htrail.
  { rewrite <- app_assoc, (parse_chars_unicode _ _ _ Hc).
    rewrite IH; [apply f_equal2; [apply Snoc|reflexivity]|lia|exact Hr]. }
  cbn [app]. rewrite (parse_chars_plain _ _ _ Hs Hlow).
  rewrite IH; [apply f_equal2; [apply Snoc|reflexivity]|lia|exact Hr].
Qed.

Lemma quoted_app (s rest : jsstring) :
  QuoteJSONString s ++ rest = dquote :: quote_chars s ++ dquote :: rest.
Proof.
  unfold QuoteJSONString. cbn [app]. rewrite <- app_assoc. reflexivity.
Qed.

(** A quoted string is read as the string it quotes. *)
Lemma parse_value_quoted (fuel : nat) (s rest : jsstring) :
  Forall code_unit s ->
  parse_value (S fuel) (QuoteJSONString s ++ rest) = Ok (VString s) rest.
Proof.
  intros Hs. rewrite quoted_app. cbn [parse_value].
  change (skip_ws (dquote :: quote_chars s ++ dquote :: rest))
    with (dquote :: quote_chars s ++ dquote :: rest).
  change (chr_is "{" dquote) with false. change (chr_is "[" dquote) with false.
  change (N.eqb dquote dquote) with true. cbv iota.
  rewrite (parse_chars_quoted (length s) s (le_n _) Hs). reflexivity.
Qed.

(** One property with a string as its value, followed by a comma or by the
    closing brace. *)
Lemma parse_members_quoted (fuel : nat) (acc : list (jsstring * value))
    (k v rest : jsstring) :
  Forall code_unit k -> Forall code_unit v ->
  parse_members (S (S fuel)) acc
    (QuoteJSONString k ++ 58 :: QuoteJSONString v ++ rest)
  = match skip_ws rest with
    | c :: r =>
        if chr_is "," c then
          parse_members (S fuel) (define_property k (VString v) acc) r
        else if chr_is "}" c then
          Ok (VObject (define_property k (VString v) acc)) r
        else SyntaxError
    | [] => SyntaxError
    end.
Proof.
  intros Hk Hv. rewrite quoted_app.
  cbn [parse_members].
  change (skip_ws (dquote :: ?l)) with (dquote :: l).
  change (skip_ws (dquote :: quote_chars k
                   ++ dquote :: 58 :: QuoteJSONString v ++ rest))
    with (dquote :: quote_chars k
          ++ dquote :: 58 :: QuoteJSONString v ++ rest).
  change (N.eqb dquote dquote) with true. cbv iota.
  rewrite (parse_chars_quoted (length k) k (le_n _) Hk). cbn [rev app].
  change (skip_ws (58 :: QuoteJSONString v ++ rest))
    with (58 :: QuoteJSONString v ++ rest).
  change (chr_is ":" 58) with true. cbv iota.
  rewrite (parse_value_quoted fuel v rest Hv). reflexivity.
Qed.

Lemma ascii_code_units (s : string) :
  Forall code_unit (str s).
Proof.
  unfold str. apply Forall_forall. intros c Hc.
  apply in_map_iff in Hc as (a & <- & _).
  unfold code_unit. pose proof (N_ascii_bounded a). lia.
Qed.

End PayloadFacts.

(** X15: the body of the chat request is JSON that reads back as the
    object with [user_id] set to [default] and [message] set to the message
    exactly as typed, whatever code units the message holds: quotes,
    backslashes, control characters and surrogates, paired or not, survive
    the serialisation. *)
Theorem X15_request_body_reads_back
    (st : SessionState) :
  Forall code_unit (message st) ->
  JSON.parse (chat_payload (message st)) = Some (chat_body st).
Proof.
  intros Hm. unfold JSON.parse, JSON.fuel_for, chat_payload.
  change (str "{") with [123%N]. change (str ":") with [58%N].
  change (str ",") with [44%N]. change (str "}") with [125%N].
  cbn [app].
  set (tail := QuoteJSONString (str "user_id") ++ _).
  assert (exists f, 2 * length (123%N :: tail) = S (S (S f))) as [f ->].
  { assert (1 <= length tail) as L
      by (unfold tail; rewrite PayloadFacts.quoted_app; cbn [length]; lia).
    exists (2 * length tail - 1). cbn [length]. lia. }
  cbn [JSON.parse_value].
  change (JSON.skip_ws (123%N :: tail)) with (123%N :: tail).
  change (chr_is "{" 123) with true. cbv iota.
  assert (JSON.skip_ws tail = tail) as ->.
  { unfold tail. rewrite PayloadFacts.quoted_app. reflexivity. }
  unfold tail at 1. rewrite PayloadFacts.quoted_app.
  change (chr_is "}" dquote) with false. cbv iota.
  unfold tail.
  rewrite PayloadFacts.parse_members_quoted;
    [|apply PayloadFacts.ascii_code_units|apply PayloadFacts.ascii_code_units].
  cbn [JSON.skip_ws]. change (JSON.is_ws 44) with false.
  change (chr_is "," 44) with true. cbv iota.
  rewrite PayloadFacts.parse_members_quoted;
    [|apply PayloadFacts.ascii_code_units|exact Hm].
  reflexivity.
Qed.

Lemma X15_witness_awkward_message :
  JSON.parse (chat_payload awkward_message)
  = Some (VObject [(str "user_id", VString (str "default"));
                   (str "message", VString awkward_message)]).
Proof.
  apply (X15_request_body_reads_back (setMessage awkward_message initial)).
  repeat constructor.
Defined.

(* ================================================================== *)
(** ** Further properties: the objects [JSON.parse] builds *)
(* ================================================================== *)

Module ObjectFacts.
Import JSON.

Lemma distinct_array (l : list value) :
  distinct_keys (VArray l) <-> Forall distinct_keys l.
Proof.
  induction l as [|x l IH].
  - split; [constructor|exact (fun _ => I)].
  - change (distinct_keys (VArray (x :: l)))
      with (distinct_keys x /\ distinct_keys (VArray l)).
    rewrite IH, Forall_cons_iff. reflexivity.
Qed.

Lemma distinct_values (o : list (jsstring * value)) :
  distinct_keys (VObject o) <->
  NoDup (List.map fst o) /\ Forall (fun kv => distinct_keys (snd kv)) o.
Proof.
  assert (forall keys : Prop,
            (keys /\
             (fix all (o : list (jsstring * value)) : Prop :=
                match o with
                | [] => True
                | kv :: r => distinct_keys (snd kv) /\ all r
                end) o)
            <-> keys /\ Forall (fun kv => distinct_keys (snd kv)) o) as K.
  { intros keys. induction o as [|kv o IH].
    - split; intros [H _]; split; try exact H; constructor.
    - rewrite Forall_cons_iff. split.
      + intros (H & H1 & H2). repeat split; try assumption.
        exact (proj2 (proj1 IH (conj H H2))).
      + intros (H & H1 & H2). repeat split; try assumption.
        exact (proj2 (proj2 IH (conj H H2))). }
  apply K.
Qed.

Lemma define_property_keys (k k' : jsstring) (v : value)
    (o : list (jsstring * value)) :
  In k' (List.map fst (define_property k v o))
  <-> k' = k \/ In k' (List.map fst o).
Proof.
  induction o as [|[k0 v0] o IH]; cbn [define_property List.map fst In].
  - split; [intros [<-|[]]; left; reflexivity|intros [->|[]]; left; reflexivity].
  - destruct (jsstring_eqb k k0) eqn:E; cbn [List.map fst In].
    + apply Facts.jsstring_eqb_eq in E. subst k0.
      split; [intros [<-|H]; auto|intros [->|[<-|H]]; auto].
    + rewrite IH. split; [intros [H|[H|H]]|intros [H|[H|H]]]; auto.
Qed.

Lemma define_property_distinct (k : jsstring) (v : value)
    (o : list (jsstring * value)) :
  NoDup (List.map fst o) -> NoDup (List.map fst (define_property k v o)).
Proof.
  induction o as [|[k0 v0] o IH]; cbn [define_property List.map fst].
  - intros _. constructor; [intros []|constructor].
  - intros H. apply NoDup_cons_iff in H as [H1 H2].
    destruct (jsstring_eqb k k0) eqn:E; cbn [List.map fst].
    + apply Facts.jsstring_eqb_eq in E. subst k0.
      constructor; assumption.
    + constructor; [|exact (IH H2)].
      rewrite define_property_keys. intros [->|H]; [|contradiction].
      rewrite Facts.jsstring_eqb_refl in E. discriminate.
Qed.

Lemma define_property_all (P : jsstring * value -> Prop) (k : jsstring)
    (v : value) (o : list (jsstring * value)) :
  P (k, v) -> Forall P o -> Forall P (define_property k v o).
Proof.
  intros Hk. induction o as [|[k0 v0] o IH]; cbn [define_property].
  - intros _. constructor; [exact Hk|constructor].
  - intros H. apply Forall_cons_iff in H as [H1 H2].
    destruct (jsstring_eqb k k0); constructor; auto.
Qed.

Lemma parse_distinct_all (fuel : nat) :
  (forall s v r, parse_value fuel s = Ok v r -> distinct_keys v) /\
  (forall acc s v r,
     parse_elements fuel acc s = Ok v r ->
     Forall distinct_keys acc -> distinct_keys v) /\
  (forall acc s v r,
     parse_members fuel acc s = Ok v r ->
     NoDup (List.map fst acc) ->
     Forall (fun kv => distinct_keys (snd kv)) acc -> distinct_keys v).
Proof.
  induction fuel as [|fuel (HV & HE & HM)].
  { repeat split; intros; discriminate. }
  split; [|split].
  - intros s v r. cbn [parse_value]. intros H.
    destruct (skip_ws s) as [|c r0]; [discriminate|].
    destruct (chr_is "{" c).
    { destruct (skip_ws r0) as [|c' r']; [discriminate|].
      destruct (chr_is "}" c').
      - injection H as <- _. split; [constructor|exact I].
      - eapply HM; [eassumption|constructor|constructor]. }
    destruct (chr_is "[" c).
    { destruct (skip_ws r0) as [|c' r']; [discriminate|].
      destruct (chr_is "]" c'); [injection H as <- _; exact I|].
      eapply HE; [eassumption|constructor]. }
    Facts.split_matches H; try discriminate; injection H as <- _; exact I.
  - intros acc s v r. cbn [parse_elements]. intros H Hacc.
    destruct (parse_value fuel s) as [v0 r0| |] eqn:E0; try discriminate.
    apply HV in E0.
    destruct (skip_ws r0) as [|c r']; [discriminate|].
    destruct (chr_is "," c).
    { eapply HE; [eassumption|constructor; assumption]. }
    destruct (chr_is "]" c); [|discriminate].
    injection H as <- _. apply distinct_array.
    apply Forall_app. split; [apply Forall_rev; assumption|].
    constructor; [assumption|constructor].
  - intros acc s v r. cbn [parse_members]. intros H Hkeys Hacc.
    destruct (skip_ws s) as [|c r0]; [discriminate|].
    destruct (N.eqb c dquote); [|discriminate].
    destruct (parse_chars [] r0) as [k r1| |]; try discriminate.
    destruct (skip_ws r1) as [|c1 r2]; [discriminate|].
    destruct (chr_is ":" c1); [|discriminate].
    destruct (parse_value fuel r2) as [v0 r3| |] eqn:E0; try discriminate.
    apply HV in E0.
    destruct (skip_ws r3) as [|c3 r4]; [discriminate|].
    assert (NoDup (List.map fst (define_property k v0 acc))) as K1
      by (apply define_property_distinct; exact Hkeys).
    assert (Forall (fun kv => distinct_keys (snd kv))
              (define_property k v0 acc)) as K2
      by (apply define_property_all; assumption).
    destruct (chr_is "," c3); [eapply HM; eassumption|].
    destruct (chr_is "}" c3); [|discriminate].
    injection H as <- _. apply distinct_values. split; assumption.
Qed.

End ObjectFacts.

(** X16: every object inside a value that [JSON.parse] returns, at any
    depth, has distinct keys: a key written twice in the text gives one
    property. *)
Theorem X16_parsed_objects_have_distinct_keys
    (text : jsstring) (v : value) :
  JSON.parse text = Some v -> distinct_keys v.
Proof.
  unfold JSON.parse. intros H.
  destruct (JSON.parse_value (JSON.fuel_for text) text) as [v0 r| |] eqn:E;
    try discriminate.
  destruct (JSON.skip_ws r); [|discriminate].
  injection H as <-.
  destruct (ObjectFacts.parse_distinct_all (JSON.fuel_for text)) as (HV & _).
  eapply HV. eassumption.
Qed.

Lemma X16_witness_repeated_key :
  distinct_keys
    (VObject [(str "a", VArray [VObject [(str "b", VNull)]])]).
Proof.
  apply (X16_parsed_objects_have_distinct_keys
           (json_text "{'a':1,'a':[{'b':2,'b':null}]}")).
  vm_compute. reflexivity.
Defined.

(** X17: defining a property and reading one back: the key just defined
    reads as the new value, whether it was there before or not, and every
    other key reads as it did. *)
Theorem X17_read_after_define
    (k k' : jsstring) (v : value) (o : list (jsstring * value)) :
  own_property (define_property k v o) k'
  = if jsstring_eqb k' k then v else own_property o k'.
Proof.
  induction o as [|[k0 v0] o IH]; cbn [define_property own_property].
  - reflexivity.
  - destruct (jsstring_eqb k k0) eqn:E; cbn [own_property].
    + apply Facts.jsstring_eqb_eq in E. subst k0.
      destruct (jsstring_eqb k' k); reflexivity.
    + rewrite IH. destruct (jsstring_eqb k' k0) eqn:E0; [|reflexivity].
      apply Facts.jsstring_eqb_eq in E0. subst k0.
      destruct (jsstring_eqb k' k) eqn:E1; [|reflexivity].
      apply Facts.jsstring_eqb_eq in E1. subst k'.
      rewrite Facts.jsstring_eqb_refl in E. discriminate.
Qed.

(* ================================================================== *)
(** ** Further properties: [trim] *)
(* ================================================================== *)

Lemma trim_start_split (s : jsstring) :
  exists p,
    s = p ++ trim_start s /\ forall c, In c p -> is_white_space c = true.
Proof.
  induction s as [|x s (p & E & W)]; cbn [trim_start].
  - exists []. split; [reflexivity|intros c []].
  - destruct (is_white_space x) eqn:Hx.
    + exists (x :: p). split; [cbn [app]; congruence|].
      intros c [<-|Hc]; [exact Hx|exact (W c Hc)].
    + exists []. split; [reflexivity|intros c []].
Qed.

(** X18: [trim] cuts white space off both ends and nothing else: the
    string is a run of white space, the trimmed string, and a run of white
    space, and the trimmed string neither begins nor ends with white
    space. *)
Theorem X18_trim_cuts_the_blank_ends (s : jsstring) :
  (exists p q,
     s = p ++ trim s ++ q /\
     (forall c, In c p -> is_white_space c = true) /\
     (forall c, In c q -> is_white_space c = true)) /\
  (forall c r, trim s = c :: r -> is_white_space c = false) /\
  (forall r c, trim s = r ++ [c] -> is_white_space c = false).
Proof.
  unfold trim.
  destruct (trim_start_split s) as (p & Ep & Wp).
  destruct (trim_start_split (rev (trim_start s))) as (q & Eq & Wq).
  assert (trim_start s
          = rev (trim_start (rev (trim_start s))) ++ rev q) as Et.
  { rewrite <- rev_app_distr, <- Eq, rev_involutive. reflexivity. }
  split; [|split].
  - exists p, (rev q). split; [|split].
    + rewrite <- Et. exact Ep.
    + exact Wp.
    + intros c Hc. apply Wq. apply in_rev. exact Hc.
  - intros c r H.
    destruct (trim_start s) as [|x t] eqn:Hs.
    { cbn in H. discriminate. }
    rewrite H in Et. cbn [app] in Et. injection Et as -> _.
    exact (GuardFacts.trim_start_head s t c Hs).
  - intros r c H.
    apply (f_equal (@rev N)) in H.
    rewrite rev_involutive, rev_app_distr in H. cbn [rev app] in H.
    exact (GuardFacts.trim_start_head _ _ _ H).
Qed.
